(** * Lowering of the ONNX reduction family to OpenVINO IR

    Shallow embedding of [op/reduce.cpp] of the ONNX frontend: the axis
    resolvers, the shared reduction builder [make_ov_reduction_op] and the
    translators of [set_1] and [set_13], followed by the properties of the
    specification that concern them; and of the compiled-model wrapper of
    the Node.js bindings, [compiled_model.cpp].

    IR construction is an effect: every [std::make_shared<Op>] and every
    [Constant::create] allocates a node.  The translators never read the
    graph under construction, so the effect is modelled as a writer: a
    computation yields the list of nodes it constructed, in construction
    order, together with a value or the exception that stopped it.  The
    constructed nodes are kept when an exception is thrown, which is what
    lets one speak about what was built before a failure. *)

From stdpp Require Import gmap strings list pretty.
From Stdlib Require Import ZArith.

Open Scope Z_scope.

(** ** Element types, dimensions and shapes *)

(** [ov::element::Type_t]. *)
Inductive element_type : Set :=
  | dynamic | boolean | bf16 | f16 | f32 | f64
  | i4 | i8 | i16 | i32 | i64
  | u1 | u4 | u8 | u16 | u32 | u64.

#[global] Instance element_type_eq_dec : EqDecision element_type.
Proof. solve_decision. Defined.

(** [ov::Dimension], as far as this unit observes it: static with a length,
    or not static.  [ov::Rank] is the same type. *)
Inductive Dimension : Set :=
  | Dim (length : nat)
  | DimDynamic.

#[global] Instance Dimension_eq_dec : EqDecision Dimension.
Proof. solve_decision. Defined.

Definition Rank : Set := Dimension.

(** [ov::PartialShape]: a dynamic rank, or a list of dimensions. *)
Inductive PartialShape : Set :=
  | PartialShapeDynamic
  | PartialShapeRanked (dims : list Dimension).

#[global] Instance PartialShape_eq_dec : EqDecision PartialShape.
Proof. solve_decision. Defined.

(** [ov::Shape]: a vector of lengths. *)
Definition Shape : Set := list nat.

Definition dim_is_static (d : Dimension) : bool :=
  match d with Dim _ => true | DimDynamic => false end.

(** [Dimension::get_length]; it throws on a dimension that is not static. *)
Definition dim_get_length (d : Dimension) : option Z :=
  match d with Dim n => Some (Z.of_nat n) | DimDynamic => None end.

(** [PartialShape::rank]. *)
Definition rank (ps : PartialShape) : Rank :=
  match ps with
  | PartialShapeDynamic => DimDynamic
  | PartialShapeRanked dims => Dim (length dims)
  end.

(** [PartialShape::is_static]. *)
Definition ps_is_static (ps : PartialShape) : bool :=
  match ps with
  | PartialShapeDynamic => false
  | PartialShapeRanked dims => forallb dim_is_static dims
  end.

Fixpoint dims_to_shape (dims : list Dimension) : option Shape :=
  match dims with
  | [] => Some []
  | Dim n :: rest => cons n <$> dims_to_shape rest
  | DimDynamic :: _ => None
  end.

(** [PartialShape::get_shape]; it throws on a shape that is not static. *)
Definition ps_get_shape (ps : PartialShape) : option Shape :=
  match ps with
  | PartialShapeDynamic => None
  | PartialShapeRanked dims => dims_to_shape dims
  end.

(** ** IR nodes and their outputs *)

(** The concrete reduction operators [OpType] the builder is
    instantiated with. *)
Inductive reduction : Set :=
  | v1_ReduceSum | v1_ReduceMean | v1_ReduceMin | v1_ReduceMax
  | v1_ReduceProd | v4_ReduceL1 | v4_ReduceL2.

#[global] Instance reduction_eq_dec : EqDecision reduction.
Proof. solve_decision. Defined.

(** The operators of the IR that occur here, with their attributes.
    [OtherOp] stands for any operator built by another translator, of which
    this unit only sees outputs. *)
Inductive op_kind : Set :=
  | OtherOp (type_name : string)
  | v0_Constant (et : element_type) (shape : Shape) (values : list Z)
  | v3_ShapeOf
  | v0_Squeeze
  | v4_Range (output_type : element_type)
  | v0_Exp
  | v0_Log
  | v1_Multiply
  | Reduce (op : reduction) (keep_dims : bool).

#[global] Instance op_kind_eq_dec : EqDecision op_kind.
Proof. solve_decision. Defined.

(** What a node knows about one of its outputs. *)
Record descriptor : Set := Descriptor {
  d_element_type : element_type;
  d_partial_shape : PartialShape
}.

#[global] Instance descriptor_eq_dec : EqDecision descriptor.
Proof. solve_decision. Defined.

(** [ov::Node] and [ov::Output<ov::Node>].  An output is a handle: the node
    that produces it and the index of the output on that node. *)
Inductive ov_node : Set :=
  | OvNode (op : op_kind) (inputs : list Output) (outputs : list descriptor)
with Output : Set :=
  | OutputOf (node : ov_node) (index : nat).

Definition node_op (n : ov_node) : op_kind :=
  match n with OvNode op _ _ => op end.

Definition node_inputs (n : ov_node) : list Output :=
  match n with OvNode _ inputs _ => inputs end.

Definition node_outputs (n : ov_node) : list descriptor :=
  match n with OvNode _ _ outputs => outputs end.

(** [Output::get_node_shared_ptr]: the producing node; the index is
    dropped. *)
Definition get_node_shared_ptr (o : Output) : ov_node :=
  match o with OutputOf n _ => n end.

Definition get_index (o : Output) : nat :=
  match o with OutputOf _ i => i end.

(** The converting constructor [Output<Node>(const std::shared_ptr<Node>&)],
    used wherever the source passes or returns a node pointer where an output
    is expected: it designates the default output of the node, which is
    output 0 (the few operators of the core library that declare no default
    output are left out). *)
Definition default_output (n : ov_node) : Output := OutputOf n 0.

(** Number of nodes in the expression of a node, shared subgraphs counted
    once per use. *)
Fixpoint node_size (n : ov_node) : nat :=
  match n with
  | OvNode _ inputs _ =>
      S (foldr (fun o acc => (output_size o + acc)%nat) 0%nat inputs)
  end
with output_size (o : Output) : nat :=
  match o with
  | OutputOf n _ => node_size n
  end.

(** ** Exceptions and the construction effect *)

(** The failures of the specification's taxonomy that can arise here, and
    the exceptions of the libraries underneath: [std::out_of_range] of
    [vector::at], the exception of [get_length] or [get_shape] on a shape
    that is not static, and the validation failure of a node constructor of
    the core library. *)
Inductive error : Set :=
  | UnsupportedType
  | AxesRankTooLarge
  | NonStaticAxesShape
  | TypeMismatch
  | OutOfRange
  | NotStatic
  | NodeValidationFailure.

#[global] Instance error_eq_dec : EqDecision error.
Proof. solve_decision. Defined.

Inductive result (A : Type) : Type :=
  | Ok (a : A)
  | Throw (e : error).
Arguments Ok {A} a.
Arguments Throw {A} e.

(** A construction: the nodes built, oldest first, and how it ended. *)
Record Build (A : Type) : Type := Built {
  trace : list ov_node;
  outcome : result A
}.
Arguments Built {A} trace outcome.
Arguments trace {A} b.
Arguments outcome {A} b.

#[global] Instance Build_ret : MRet Build := fun A a => Built [] (Ok a).

#[global] Instance Build_bind : MBind Build := fun A B f m =>
  match outcome m with
  | Ok a => Built (trace m ++ trace (f a)) (outcome (f a))
  | Throw e => Built (trace m) (Throw e)
  end.

Definition throw {A} (e : error) : Build A := Built [] (Throw e).

(** A node has been allocated. *)
Definition emit (n : ov_node) : Build ov_node := Built [n] (Ok n).

(** The checking macros: the exception is thrown when the condition is
    false. *)
Definition check (cond : bool) (e : error) : Build unit :=
  if cond then mret tt else throw e.

(** A library call that throws [e] where it has no value. *)
Definition or_throw {A} (o : option A) (e : error) : Build A :=
  match o with Some a => mret a | None => throw e end.

(** [std::vector::at]. *)
Definition at_ {A} (v : list A) (i : nat) : Build A :=
  or_throw (v !! i) OutOfRange.

(** The descriptor of an output is read from the producing node
    ([m_outputs.at(index)]). *)
Definition get_descriptor (o : Output) : Build descriptor :=
  or_throw (node_outputs (get_node_shared_ptr o) !! get_index o) OutOfRange.

(** [Output::get_element_type] and [Output::get_partial_shape]. *)
Definition get_element_type (o : Output) : Build element_type :=
  d ← get_descriptor o; mret (d_element_type d).

Definition get_partial_shape (o : Output) : Build PartialShape :=
  d ← get_descriptor o; mret (d_partial_shape d).

(** ** The source operator *)

(** A stored ONNX attribute: integer, float (its IEEE bits), string, integer
    list or embedded tensor. *)
Inductive Attribute : Set :=
  | AttrInt (v : Z)
  | AttrFloat (bits : Z)
  | AttrString (s : string)
  | AttrInts (vs : list Z)
  | AttrTensor (et : element_type) (shape : Shape) (data : list Z).

(** [ov::frontend::onnx::Node]: the inputs, in order, and the attributes by
    name. *)
Record Node : Type := OnnxNode {
  get_ov_inputs : list Output;
  attributes : gmap string Attribute
}.

(** Modelled from the spec: [Node::get_attribute_value<T>(name, default)] is
    declared outside this unit.  An attribute that is not present yields the
    default; a stored attribute whose type disagrees with [T] fails with
    [TypeMismatch].  Here at [T = std::int64_t]. *)
Definition get_attribute_value_int (node : Node) (name : string) (default : Z)
  : Build Z :=
  match attributes node !! name with
  | None => mret default
  | Some (AttrInt v) => mret v
  | Some _ => throw TypeMismatch
  end.

(** Modelled from the spec: the same accessor at
    [T = std::vector<std::int64_t>]. *)
Definition get_attribute_value_ints (node : Node) (name : string)
  (default : list Z) : Build (list Z) :=
  match attributes node !! name with
  | None => mret default
  | Some (AttrInts vs) => mret vs
  | Some _ => throw TypeMismatch
  end.

(** Modelled from the spec: [common::get_monotonic_range<int64_t>(end)] is
    declared in [utils/common.hpp], outside this unit; it is the monotonic
    range [0, 1, ..., end-1]. *)
Definition get_monotonic_range (end_value : Z) : list Z :=
  Z.of_nat <$> seq 0 (Z.to_nat end_value).

(** Modelled from the spec: [set_1::identity] is declared in [identity.hpp],
    outside this unit; it returns the inputs of the node unchanged and
    creates no node. *)
Definition identity (node : Node) : Build (list Output) :=
  mret (get_ov_inputs node).

(** The supported element types of the two eras ([std::set]s in the source;
    only membership is ever asked). *)
Definition supported_types_v1 : list element_type :=
  [u32; u64; i32; i64; f16; f32; f64].

Definition supported_types_v2 : list element_type :=
  [u32; u64; i32; i64; f16; f32; f64; bf16].

Section Lowering.

(** The node constructors of the core library run the type and shape
    inference of their operator.  The shapes inferred for [ShapeOf],
    [Squeeze], [Range] and the reductions are never read by this unit and
    are a parameter. *)
Variable infer_shape : op_kind → list Output → PartialShape.

(** Output descriptors of a new node; every operator built here has one
    output.  The element-wise arithmetic operators ([Exp], [Log],
    [Multiply]) reject boolean arguments and give their result the type and
    shape of the argument; [Multiply] is only ever applied to one output
    twice, and for two arguments of different shapes the broadcast shape is
    left to the parameter.  A constant has the type and the shape it was
    created with; [ShapeOf] yields [i64]; [Squeeze] and the reductions keep
    the element type of their data.  Whatever else these constructors
    validate is not modelled: apart from the cases below they succeed.  In
    particular a reduction is accepted over any axes operand, where the core
    library requires axes of an integer type and of rank at most one, and
    constant axes within the rank of the data when that rank is known. *)
Definition validate_and_infer_types (op : op_kind) (args : list Output)
  : Build (list descriptor) :=
  match op, args with
  | (v0_Exp | v0_Log), [x] =>
      d ← get_descriptor x;
      _ ← check (bool_decide (d_element_type d ≠ boolean)) NodeValidationFailure;
      mret [d]
  | v1_Multiply, [x; y] =>
      dx ← get_descriptor x;
      dy ← get_descriptor y;
      _ ← check (bool_decide (d_element_type dx = d_element_type dy))
            NodeValidationFailure;
      _ ← check (bool_decide (d_element_type dx ≠ boolean)) NodeValidationFailure;
      mret [if decide (dx = dy) then dx
            else Descriptor (d_element_type dx) (infer_shape op args)]
  | v0_Constant et shape _, [] =>
      mret [Descriptor et (PartialShapeRanked (Dim <$> shape))]
  | v3_ShapeOf, [_] => mret [Descriptor i64 (infer_shape op args)]
  | v4_Range et, [_; _; _] => mret [Descriptor et (infer_shape op args)]
  | (v0_Squeeze | Reduce _ _), [data; _] =>
      d ← get_descriptor data;
      mret [Descriptor (d_element_type d) (infer_shape op args)]
  | _, _ => throw NodeValidationFailure
  end.

(** [std::make_shared<Op>(args...)]: the constructor infers the output
    descriptors, and the node exists from then on. *)
Definition make_shared (op : op_kind) (args : list Output) : Build ov_node :=
  outs ← validate_and_infer_types op args;
  emit (OvNode op args outs).

(** [v0::Constant::create(type, shape, values)]. *)
Definition Constant_create (et : element_type) (shape : Shape)
  (values : list Z) : Build ov_node :=
  make_shared (v0_Constant et shape values) [].

(** ** The axis resolvers *)

Definition get_dynamic_all_axes_range (node : Node) : Build ov_node :=
  input ← at_ (get_ov_inputs node) 0;
  shape_of_input ← make_shared v3_ShapeOf [input];
  scalar ← Constant_create i32 [1%nat] [0];
  rank_of_input ← make_shared v3_ShapeOf [default_output shape_of_input];
  rank_of_input_scalar ←
    make_shared v0_Squeeze [default_output rank_of_input; default_output scalar];
  start ← Constant_create i32 [] [0];
  step ← Constant_create i32 [] [1];
  make_shared (v4_Range i64)
    [default_output start; default_output rank_of_input_scalar;
     default_output step].

(** The axes node, or [None] for the null pointer.  The early [return] of
    the source is the [Some] of [supplied]. *)
Definition get_reduction_axes_from_input (node : Node) : Build (option ov_node) :=
  noop_with_empty_axes ← get_attribute_value_int node "noop_with_empty_axes" 0;
  input ← at_ (get_ov_inputs node) 0;
  supplied ←
    (if bool_decide (1 < length (get_ov_inputs node))%nat then
       reduction_axes ← at_ (get_ov_inputs node) 1;
       axes_shape ← get_partial_shape reduction_axes;
       let reduction_axes_rank := rank axes_shape in
       _ ← check (ps_is_static axes_shape) NonStaticAxesShape;
       rank_length ← or_throw (dim_get_length reduction_axes_rank) NotStatic;
       if bool_decide (rank_length ≠ 0) then
         shape ← or_throw (ps_get_shape axes_shape) NotStatic;
         if bool_decide (shape ≠ [0%nat]) then
           mret (Some (get_node_shared_ptr reduction_axes))
         else mret None
       else mret None
     else mret None);
  match supplied with
  | Some axes => mret (Some axes)
  | None =>
      if bool_decide (noop_with_empty_axes ≠ 0) then mret None
      else axes ← get_dynamic_all_axes_range node; mret (Some axes)
  end.

(** The cast of [reduction_axes.size()] to [int64_t] keeps the value: a
    vector of 64-bit integers has fewer than [2^63] elements. *)
Definition get_reduction_axes_from_attr (node : Node) : Build (option ov_node) :=
  reduction_axes ← get_attribute_value_ints node "axes" [];
  input ← at_ (get_ov_inputs node) 0;
  input_shape ← get_partial_shape input;
  let input_rank := rank input_shape in
  resolved ←
    (if bool_decide (reduction_axes = []) then
       if dim_is_static input_rank then
         rank_length ← or_throw (dim_get_length input_rank) NotStatic;
         mret (inl (get_monotonic_range rank_length))
       else
         axes ← get_dynamic_all_axes_range node; mret (inr axes)
     else mret (inl reduction_axes));
  match resolved with
  | inr axes => mret (Some axes)
  | inl reduction_axes =>
      _ ← (if dim_is_static input_rank then
             rank_length ← or_throw (dim_get_length input_rank) NotStatic;
             check (bool_decide (Z.of_nat (length reduction_axes) ≤ rank_length))
                   AxesRankTooLarge
           else mret tt);
      axes ← Constant_create i64 [length reduction_axes] reduction_axes;
      mret (Some axes)
  end.

(** ** The shared reduction builder *)

Definition make_ov_reduction_op (OpType : reduction) (node : Node)
  (ov_input : Output) (supported_types : list element_type)
  (axes_as_attr : bool) : Build ov_node :=
  keepdims ← get_attribute_value_int node "keepdims" 1;
  input_type ← get_element_type ov_input;
  _ ← check (bool_decide (input_type ∈ supported_types)) UnsupportedType;
  reduction_axes ←
    (if axes_as_attr then get_reduction_axes_from_attr node
     else get_reduction_axes_from_input node);
  match reduction_axes with
  | Some axes =>
      make_shared (Reduce OpType (bool_decide (keepdims ≠ 0)))
        [ov_input; default_output axes]
  | None =>
      outputs ← identity node;
      first ← at_ outputs 0;
      mret (get_node_shared_ptr first)
  end.

End Lowering.

(** ** The translators *)

(** A translator returns an [ov::OutputVector]; the braces of
    [return {node_pointer}] convert the node to its default output. *)
Module set_1.
Section Translators.
Variable infer_shape : op_kind → list Output → PartialShape.

Definition reduce_log_sum (node : Node) : Build (list Output) :=
  input ← at_ (get_ov_inputs node) 0;
  sum_node ← make_ov_reduction_op infer_shape v1_ReduceSum node input
                supported_types_v1 true;
  log_node ← make_shared infer_shape v0_Log [default_output sum_node];
  mret [default_output log_node].

Definition reduce_log_sum_exp (node : Node) : Build (list Output) :=
  input ← at_ (get_ov_inputs node) 0;
  exp_node ← make_shared infer_shape v0_Exp [input];
  sum_node ← make_ov_reduction_op infer_shape v1_ReduceSum node
                (default_output exp_node) supported_types_v1 true;
  log_node ← make_shared infer_shape v0_Log [default_output sum_node];
  mret [default_output log_node].

(** The seven translators that are the builder at one operator. *)
Definition reduce_direct (OpType : reduction) (node : Node) : Build (list Output) :=
  input ← at_ (get_ov_inputs node) 0;
  reduced ← make_ov_reduction_op infer_shape OpType node input
               supported_types_v1 true;
  mret [default_output reduced].

Definition reduce_l1 := reduce_direct v4_ReduceL1.
Definition reduce_l2 := reduce_direct v4_ReduceL2.
Definition reduce_max := reduce_direct v1_ReduceMax.
Definition reduce_mean := reduce_direct v1_ReduceMean.
Definition reduce_min := reduce_direct v1_ReduceMin.
Definition reduce_prod := reduce_direct v1_ReduceProd.
Definition reduce_sum := reduce_direct v1_ReduceSum.

Definition reduce_sum_square (node : Node) : Build (list Output) :=
  input ← at_ (get_ov_inputs node) 0;
  square_node ← make_shared infer_shape v1_Multiply [input; input];
  reduced ← make_ov_reduction_op infer_shape v1_ReduceSum node
               (default_output square_node) supported_types_v1 true;
  mret [default_output reduced].

End Translators.
End set_1.

Module set_13.
Section Translators.
Variable infer_shape : op_kind → list Output → PartialShape.

Definition reduce_sum (node : Node) : Build (list Output) :=
  input ← at_ (get_ov_inputs node) 0;
  reduced ← make_ov_reduction_op infer_shape v1_ReduceSum node input
               supported_types_v2 false;
  mret [default_output reduced].

End Translators.
End set_13.

(** The early-era translators, by name. *)
Inductive early_translator : Set :=
  | ReduceLogSum | ReduceLogSumExp | ReduceL1 | ReduceL2 | ReduceMax
  | ReduceMean | ReduceMin | ReduceProd | ReduceSum | ReduceSumSquare.

Definition early infer_shape (t : early_translator) : Node → Build (list Output) :=
  match t with
  | ReduceLogSum => set_1.reduce_log_sum infer_shape
  | ReduceLogSumExp => set_1.reduce_log_sum_exp infer_shape
  | ReduceL1 => set_1.reduce_l1 infer_shape
  | ReduceL2 => set_1.reduce_l2 infer_shape
  | ReduceMax => set_1.reduce_max infer_shape
  | ReduceMean => set_1.reduce_mean infer_shape
  | ReduceMin => set_1.reduce_min infer_shape
  | ReduceProd => set_1.reduce_prod infer_shape
  | ReduceSum => set_1.reduce_sum infer_shape
  | ReduceSumSquare => set_1.reduce_sum_square infer_shape
  end.

(** ** Sample values *)

(** A shape inference that knows nothing. *)
Definition no_inference : op_kind → list Output → PartialShape :=
  fun _ _ => PartialShapeDynamic.

(** A graph input of the given element type and shape. *)
Definition parameter (name : string) (et : element_type) (ps : PartialShape)
  : ov_node :=
  OvNode (OtherOp name) [] [Descriptor et ps].

(** A two-output node: [VariadicSplit] of an [f32] tensor of shape [2, 3]
    along axis 1 into parts of lengths 1 and 2. *)
Definition variadic_split : ov_node :=
  OvNode (OtherOp "VariadicSplit")
    [default_output (parameter "data" f32 (PartialShapeRanked [Dim 2; Dim 3]))]
    [Descriptor f32 (PartialShapeRanked [Dim 2; Dim 1]);
     Descriptor f32 (PartialShapeRanked [Dim 2; Dim 2])].

Definition matrix (et : element_type) : Output :=
  default_output (parameter "x" et (PartialShapeRanked [Dim 2; Dim 3])).

Definition unranked (et : element_type) : Output :=
  default_output (parameter "x" et PartialShapeDynamic).

(** An operator over [x : et[2,3]] with no attributes, one that moreover
    lists three axes, and one whose second input has a shape with a dimension
    that is not known. *)
Definition plain_node (et : element_type) : Node := OnnxNode [matrix et] ∅.

Definition three_axes_node : Node :=
  OnnxNode [matrix f32] {[ "axes" := AttrInts [0; 1; 2] ]}.

Definition dynamic_axes_node : Node :=
  OnnxNode
    [matrix f32;
     default_output (parameter "axes" i64 (PartialShapeRanked [DimDynamic]))]
    ∅.

(** ** Reading the source operator *)

(** The integer attribute [name] reads as [v]: stored as such, or absent
    with [v] the default. *)
Definition int_attribute (node : Node) (name : string) (default v : Z) : Prop :=
  attributes node !! name = Some (AttrInt v)
  ∨ (attributes node !! name = None ∧ v = default).

(** The [axes] attribute reads as [axes]: stored as such, or absent with
    [axes] empty. *)
Definition axes_attribute (node : Node) (axes : list Z) : Prop :=
  attributes node !! "axes" = Some (AttrInts axes)
  ∨ (attributes node !! "axes" = None ∧ axes = []).

(** The output [o] exists on its node and has descriptor [d]. *)
Definition has_descriptor (o : Output) (d : descriptor) : Prop :=
  node_outputs (get_node_shared_ptr o) !! get_index o = Some d.

Definition has_type (o : Output) (et : element_type) : Prop :=
  ∃ ps, has_descriptor o (Descriptor et ps).

Definition has_shape (o : Output) (ps : PartialShape) : Prop :=
  ∃ et, has_descriptor o (Descriptor et ps).

(** The node built by [Constant::create]. *)
Definition constant (et : element_type) (shape : Shape) (values : list Z)
  : ov_node :=
  OvNode (v0_Constant et shape values) []
    [Descriptor et (PartialShapeRanked (Dim <$> shape))].

(** ** What the resolvers decide *)

(** The axes the attribute path settles on when the rank is known. *)
Definition resolved_axes (axes : list Z) (input_rank : nat) : list Z :=
  if bool_decide (axes = []) then get_monotonic_range (Z.of_nat input_rank)
  else axes.

(** The input path.  No axes are supplied when there is no second input, or
    when the static shape of the second input is the scalar shape or the
    shape [{0}]. *)
Definition no_axes_supplied (node : Node) : Prop :=
  (length (get_ov_inputs node) ≤ 1)%nat
  ∨ ∃ axes, get_ov_inputs node !! 1%nat = Some axes
      ∧ (has_shape axes (PartialShapeRanked [])
         ∨ has_shape axes (PartialShapeRanked [Dim 0])).

(** ** The nodes the translators build *)

(** The element-wise nodes of the two composed translators and of the log
    variants; their descriptor is that of the argument. *)
Definition exp_node (x : Output) (d : descriptor) : ov_node :=
  OvNode v0_Exp [x] [d].

Definition log_node (x : Output) (d : descriptor) : ov_node :=
  OvNode v0_Log [x] [d].

Definition square_node (x : Output) (d : descriptor) : ov_node :=
  OvNode v1_Multiply [x; x] [d].

(** The operators of the nodes an axis resolver builds. *)
Definition axes_op (op : op_kind) : bool :=
  match op with
  | v0_Constant _ _ _ | v3_ShapeOf | v0_Squeeze | v4_Range _ => true
  | _ => false
  end.

Section Nodes.
Variable infer_shape : op_kind → list Output → PartialShape.

(** A one-output node of element type [et] whose shape is inferred by the
    core library. *)
Definition typed_node (op : op_kind) (args : list Output) (et : element_type)
  : ov_node :=
  OvNode op args [Descriptor et (infer_shape op args)].

(** The seven nodes of the run-time range [0, rank) over [input], in
    construction order; the range itself is the last one. *)
Definition shape_of_node (input : Output) : ov_node :=
  typed_node v3_ShapeOf [input] i64.

Definition rank_of_node (input : Output) : ov_node :=
  typed_node v3_ShapeOf [default_output (shape_of_node input)] i64.

Definition rank_scalar_node (input : Output) : ov_node :=
  typed_node v0_Squeeze
    [default_output (rank_of_node input);
     default_output (constant i32 [1%nat] [0])] i64.

Definition all_axes_range_node (input : Output) : ov_node :=
  typed_node (v4_Range i64)
    [default_output (constant i32 [] [0]);
     default_output (rank_scalar_node input);
     default_output (constant i32 [] [1])] i64.

Definition all_axes_range_trace (input : Output) : list ov_node :=
  [shape_of_node input; constant i32 [1%nat] [0]; rank_of_node input;
   rank_scalar_node input; constant i32 [] [0]; constant i32 [] [1];
   all_axes_range_node input].

(** The reduction node the builder creates over [data]. *)
Definition reduce_node (op : reduction) (keep_dims : bool) (data : Output)
  (axes : ov_node) (et : element_type) : ov_node :=
  typed_node (Reduce op keep_dims) [data; default_output axes] et.

(** The descriptor of the output of a reduction over data of type [et]. *)
Definition reduced_descriptor (op : reduction) (keep_dims : bool)
  (data : Output) (axes : ov_node) (et : element_type) : descriptor :=
  Descriptor et
    (infer_shape (Reduce op keep_dims) [data; default_output axes]).

End Nodes.

(** ** The early-era translators in one form *)

(** The reduction operator of a translator, what it builds before the axes
    are resolved, and the data it reduces. *)
Definition operator_of (t : early_translator) : reduction :=
  match t with
  | ReduceL1 => v4_ReduceL1
  | ReduceL2 => v4_ReduceL2
  | ReduceMax => v1_ReduceMax
  | ReduceMean => v1_ReduceMean
  | ReduceMin => v1_ReduceMin
  | ReduceProd => v1_ReduceProd
  | ReduceLogSum | ReduceLogSumExp | ReduceSum | ReduceSumSquare => v1_ReduceSum
  end.

Definition built_first (t : early_translator) (input : Output) (d : descriptor)
  : list ov_node :=
  match t with
  | ReduceLogSumExp => [exp_node input d]
  | ReduceSumSquare => [square_node input d]
  | _ => []
  end.

Definition data_of (t : early_translator) (input : Output) (d : descriptor)
  : Output :=
  match t with
  | ReduceLogSumExp => default_output (exp_node input d)
  | ReduceSumSquare => default_output (square_node input d)
  | _ => input
  end.

Section EarlyForm.
Variable infer_shape : op_kind → list Output → PartialShape.

(** What an early-era translation that succeeds has read from its node:
    the first input and its descriptor, the [keepdims] attribute, a
    supported element type, and the axes node with the nodes built for it. *)
Definition reads (node : Node) (input : Output) (d : descriptor)
  (keepdims : Z) (axes_trace : list ov_node) (axes : ov_node) : Prop :=
  get_ov_inputs node !! 0%nat = Some input
  ∧ has_descriptor input d
  ∧ int_attribute node "keepdims" 1 keepdims
  ∧ d_element_type d ∈ supported_types_v1
  ∧ get_reduction_axes_from_attr infer_shape node
    = Built axes_trace (Ok (Some axes)).

Definition reduced_of (t : early_translator) (input : Output) (d : descriptor)
  (keepdims : Z) (axes : ov_node) : ov_node :=
  reduce_node infer_shape (operator_of t) (bool_decide (keepdims ≠ 0))
    (data_of t input d) axes (d_element_type d).

Definition result_of (t : early_translator) (input : Output) (d : descriptor)
  (keepdims : Z) (axes : ov_node) : ov_node :=
  match t with
  | ReduceLogSum | ReduceLogSumExp =>
      log_node (default_output (reduced_of t input d keepdims axes))
        (reduced_descriptor infer_shape (operator_of t)
           (bool_decide (keepdims ≠ 0)) (data_of t input d) axes
           (d_element_type d))
  | _ => reduced_of t input d keepdims axes
  end.

Definition built_last (t : early_translator) (input : Output) (d : descriptor)
  (keepdims : Z) (axes : ov_node) : list ov_node :=
  match t with
  | ReduceLogSum | ReduceLogSumExp =>
      [reduced_of t input d keepdims axes; result_of t input d keepdims axes]
  | _ => [reduced_of t input d keepdims axes]
  end.

End EarlyForm.

(** The construction [m] does not end in the exception [e]. *)
Definition never_throws {A} (e : error) (m : Build A) : Prop :=
  outcome m ≠ Throw e.

(** ** Operators seen from outside *)

(** Axes are supplied on the input path when the second input has a static
    shape that is neither the scalar shape nor the shape [{0}]. *)
Definition axes_supplied (node : Node) (axes : Output) (shape : Shape) : Prop :=
  get_ov_inputs node !! 1%nat = Some axes
  ∧ has_shape axes (PartialShapeRanked (Dim <$> shape))
  ∧ shape ≠ []
  ∧ shape ≠ [0%nat].

(** The same operator with one attribute stored, with another list of
    inputs. *)
Definition with_attribute (name : string) (a : Attribute) (node : Node) : Node :=
  OnnxNode (get_ov_inputs node) (<[name := a]> (attributes node)).

Definition with_inputs (inputs : list Output) (node : Node) : Node :=
  OnnxNode inputs (attributes node).

(** The attribute [name] is stored, but not as an integer. *)
Definition not_an_integer (node : Node) (name : string) : Prop :=
  ∃ a, attributes node !! name = Some a ∧ ∀ v, a ≠ AttrInt v.

(** The attribute [name] is stored, but not as a list of integers. *)
Definition not_an_integer_list (node : Node) (name : string) : Prop :=
  ∃ a, attributes node !! name = Some a ∧ ∀ vs, a ≠ AttrInts vs.

Definition is_reduce (op : op_kind) : bool :=
  match op with Reduce _ _ => true | _ => false end.

(** The exceptions this unit throws itself, as opposed to those of the node
    constructors of the core library. *)
Definition thrown_here (e : error) : bool :=
  match e with NodeValidationFailure => false | _ => true end.

(** ** The compiled-model wrapper of the Node.js bindings

    [bindings/js/node/src/compiled_model.cpp]: the methods [output],
    [input] and the accessors [outputs], [inputs] that the class
    [CompiledModel] offers to JavaScript. *)

Module CompiledModelWrap.

(** A C++ exception, by its [what()]; a call that returns or lets an
    exception escape. *)
Definition exception : Set := string.

Inductive returned (A : Type) : Type :=
  | Returns (a : A)
  | Escapes (e : exception).
Arguments Returns {A} a.
Arguments Escapes {A} e.

Definition and_then {A B} (r : returned A) (f : A → returned B) : returned B :=
  match r with Returns a => f a | Escapes e => Escapes e end.

(** [ov::CompiledModel], declared in the runtime library, as an interface:
    the ports it lists, and what [input()], [input(name)], [input(index)]
    and their [output] counterparts answer.  A port is an
    [ov::Output<const ov::Node>]. *)
Record CompiledModel : Type := {
  inputs : list Output;
  input : returned Output;
  input_by_name : string → returned Output;
  input_by_index : Z → returned Output;
  outputs : list Output;
  output : returned Output;
  output_by_name : string → returned Output;
  output_by_index : Z → returned Output
}.

(** What a method leaves behind: the messages handed to [reportError], and
    the value returned or the exception that escaped. *)
Record Call (A : Type) : Type := Called {
  reported : list string;
  result : returned A
}.
Arguments Called {A} reported result.
Arguments reported {A} c.
Arguments result {A} c.

Section Bindings.

(** JavaScript numbers and their conversion [Int32Value]; the objects that
    wrap a port, and [Output<const ov::Node>::wrap], which is declared in
    [node_output.hpp] and may throw. *)
Variables number object : Type.
Variable Int32Value : number → Z.
Variable wrap : Output → returned object.

(** An argument of a call, as far as [IsString] and [IsNumber] tell. *)
Inductive Argument : Type :=
  | String (s : string)
  | Number (n : number)
  | Neither.

(** What a method returns: the empty [Napi::Value()], the object of a port,
    or an array, whose elements are objects or holes. *)
Inductive Value : Type :=
  | Empty
  | Object (o : object)
  | Array (elements : list (option object)).

(** The index of type [int32_t] is passed where a [size_t] is expected, of
    64 bits on the platforms the bindings are built for. *)
Definition to_size_t (idx : Z) : Z := idx mod 2 ^ 64.

(** [get_output] and [get_input] are one text, up to the accessors of the
    model and the last message.  [info[0]] of an empty argument list would
    be [undefined]. *)
Definition get_port (only : returned Output)
  (by_name : string → returned Output) (by_index : Z → returned Output)
  (last_message : string) (info : list Argument) : Call Value :=
  if bool_decide (length info = 0%nat) then
    match and_then only wrap with
    | Returns o => Called [] (Returns (Object o))
    | Escapes e => Called [e] (Returns Empty)
    end
  else if bool_decide (length info ≠ 1%nat) then
    Called ["Invalid number of arguments -> " +:+ pretty (length info)]
           (Returns Empty)
  else
    match default Neither (info !! 0%nat) with
    | String tensor_name =>
        Called [] (and_then (and_then (by_name tensor_name) wrap)
                     (λ o, Returns (Object o)))
    | Number n =>
        Called [] (and_then (and_then (by_index (to_size_t (Int32Value n)))
                               wrap)
                     (λ o, Returns (Object o)))
    | Neither => Called [last_message] (Returns Empty)
    end.

Definition get_output (cm : CompiledModel) : list Argument → Call Value :=
  get_port (output cm) (output_by_name cm) (output_by_index cm)
    "Error while getting compiled model outputs.".

Definition get_input (cm : CompiledModel) : list Argument → Call Value :=
  get_port (input cm) (input_by_name cm) (input_by_index cm)
    "Error while getting compiled model inputs.".

(** [Napi::Array::New(env, n)] and the assignment [array[i] = o]; an index
    past the end makes the array longer. *)
Definition new_array (n : nat) : list (option object) := replicate n None.

Definition array_set (array : list (option object)) (i : nat) (o : object)
  : list (option object) :=
  if bool_decide (i < length array)%nat then <[i := Some o]> array
  else array ++ replicate (i - length array) None ++ [Some o].

(** The loop of [get_outputs] and [get_inputs]: [i] is a [uint32_t]. *)
Fixpoint wrap_into (ports : list Output) (i : Z)
  (array : list (option object)) : returned (list (option object)) :=
  match ports with
  | [] => Returns array
  | port :: rest =>
      and_then (wrap port) (λ o,
        wrap_into rest ((i + 1) mod 2 ^ 32) (array_set array (Z.to_nat i) o))
  end.

Definition get_ports (ports : list Output) : Call Value :=
  Called [] (and_then (wrap_into ports 0 (new_array (length ports)))
               (λ array, Returns (Array array))).

Definition get_outputs (cm : CompiledModel) : Call Value :=
  get_ports (outputs cm).

Definition get_inputs (cm : CompiledModel) : Call Value :=
  get_ports (inputs cm).

(** The objects of all ports, in order, or the exception of the first port
    that cannot be wrapped. *)
Fixpoint wrap_all (ports : list Output) : returned (list object) :=
  match ports with
  | [] => Returns []
  | port :: rest =>
      and_then (wrap port) (λ o,
        and_then (wrap_all rest) (λ os, Returns (o :: os)))
  end.

End Bindings.

Arguments String {number} s.
Arguments Number {number} n.
Arguments Neither {number}.
Arguments Empty {object}.
Arguments Object {object} o.
Arguments Array {object} elements.

End CompiledModelWrap.

(** ** More sample values *)

(** An operator whose second input supplies one axis, one that stores a
    negative axis and an axis beyond the rank, one that stores [keepdims] as
    a float, and one without inputs. *)
Definition one_axis : ov_node :=
  parameter "axes" i64 (PartialShapeRanked [Dim 1]).

Definition axes_input_node : Node :=
  OnnxNode [matrix f32; default_output one_axis] ∅.

Definition odd_axes_node : Node :=
  OnnxNode [matrix f32] {[ "axes" := AttrInts [-1; 7] ]}.

Definition float_keepdims_node : Node :=
  OnnxNode [matrix f32] {[ "keepdims" := AttrFloat 0 ]}.

Definition no_input_node : Node := OnnxNode [] ∅.

(** A compiled model with one input and two outputs; it answers [output()]
    with an exception, and by index for the indices it has. *)
Definition sample_model : CompiledModelWrap.CompiledModel :=
  {| CompiledModelWrap.inputs := [matrix f32];
     CompiledModelWrap.input := CompiledModelWrap.Returns (matrix f32);
     CompiledModelWrap.input_by_name :=
       λ _, CompiledModelWrap.Escapes "no such input";
     CompiledModelWrap.input_by_index :=
       λ i, if bool_decide (i = 0) then CompiledModelWrap.Returns (matrix f32)
            else CompiledModelWrap.Escapes "no such input";
     CompiledModelWrap.outputs :=
       [OutputOf variadic_split 0; OutputOf variadic_split 1];
     CompiledModelWrap.output :=
       CompiledModelWrap.Escapes "more than one output";
     CompiledModelWrap.output_by_name :=
       λ _, CompiledModelWrap.Escapes "no such output";
     CompiledModelWrap.output_by_index :=
       λ i, if bool_decide (i = 0)
            then CompiledModelWrap.Returns (OutputOf variadic_split 0)
            else if bool_decide (i = 1)
            then CompiledModelWrap.Returns (OutputOf variadic_split 1)
            else CompiledModelWrap.Escapes "no such output" |}.

(** A wrapping that always succeeds: the object is the port. *)
Definition wrap_port (port : Output) : CompiledModelWrap.returned Output :=
  CompiledModelWrap.Returns port.

(** ** The construction effect: equations *)

Lemma bind_ret {A B} (a : A) (f : A → Build B) : mret a ≫= f = f a.
Proof. unfold mbind, Build_bind. simpl. by destruct (f a). Qed.

Lemma Build_eta {A} (m : Build A) : Built (trace m) (outcome m) = m.
Proof. by destruct m. Qed.

Lemma bind_Built_Ok {A B} w (a : A) (f : A → Build B) :
  Built w (Ok a) ≫= f = Built (w ++ trace (f a)) (outcome (f a)).
Proof. reflexivity. Qed.

Lemma bind_emit {B} n (f : ov_node → Build B) :
  emit n ≫= f = Built (n :: trace (f n)) (outcome (f n)).
Proof. reflexivity. Qed.

Lemma trace_ret {A} (a : A) : trace (mret a) = [].
Proof. reflexivity. Qed.

Lemma outcome_ret {A} (a : A) : outcome (mret a) = Ok a.
Proof. reflexivity. Qed.

(** Runs the binds whose left side is known. *)
Ltac build_run :=
  repeat first
    [ rewrite bind_ret | rewrite bind_emit | rewrite bind_Built_Ok
    | rewrite trace_ret | rewrite outcome_ret
    | progress cbn [trace outcome emit app] ];
  rewrite ?app_nil_r, <- ?app_assoc; cbn [app].

Lemma get_attribute_value_int_read node name default v :
  int_attribute node name default v →
  get_attribute_value_int node name default = mret v.
Proof.
  unfold get_attribute_value_int.
  by intros [-> | [-> ->]].
Qed.

Lemma get_attribute_value_ints_read node axes :
  axes_attribute node axes →
  get_attribute_value_ints node "axes" [] = mret axes.
Proof.
  unfold get_attribute_value_ints.
  by intros [-> | [-> ->]].
Qed.

Lemma get_descriptor_read o d :
  has_descriptor o d → get_descriptor o = mret d.
Proof. unfold get_descriptor, has_descriptor. by intros ->. Qed.

Lemma get_partial_shape_read o ps :
  has_shape o ps → get_partial_shape o = mret ps.
Proof.
  intros [et H]. unfold get_partial_shape.
  by rewrite (get_descriptor_read _ _ H), bind_ret.
Qed.

Lemma get_element_type_read o et :
  has_type o et → get_element_type o = mret et.
Proof.
  intros [ps H]. unfold get_element_type.
  by rewrite (get_descriptor_read _ _ H), bind_ret.
Qed.

Lemma at_read {A} (v : list A) i a : v !! i = Some a → at_ v i = mret a.
Proof. unfold at_. by intros ->. Qed.

Lemma get_monotonic_range_length (n : nat) :
  length (get_monotonic_range (Z.of_nat n)) = n.
Proof.
  unfold get_monotonic_range.
  by rewrite length_fmap, length_seq, Nat2Z.id.
Qed.

(** ** The axis resolvers: what they compute *)

Section Resolvers.
Variable infer_shape : op_kind → list Output → PartialShape.

Lemma get_dynamic_all_axes_range_eq node input :
  get_ov_inputs node !! 0%nat = Some input →
  get_dynamic_all_axes_range infer_shape node
  = Built (all_axes_range_trace infer_shape input) (Ok (all_axes_range_node infer_shape input)).
Proof.
  intros Hin. unfold get_dynamic_all_axes_range.
  rewrite (at_read _ _ _ Hin), bind_ret. reflexivity.
Qed.

Lemma get_reduction_axes_from_attr_static node axes input dims :
  axes_attribute node axes →
  get_ov_inputs node !! 0%nat = Some input →
  has_shape input (PartialShapeRanked dims) →
  get_reduction_axes_from_attr infer_shape node
  = let resolved := resolved_axes axes (length dims) in
    if bool_decide (length resolved ≤ length dims)%nat then
      Built [constant i64 [length resolved] resolved]
            (Ok (Some (constant i64 [length resolved] resolved)))
    else Built [] (Throw AxesRankTooLarge).
Proof.
  intros Hax Hin Hsh. unfold get_reduction_axes_from_attr.
  rewrite (get_attribute_value_ints_read _ _ Hax), bind_ret.
  rewrite (at_read _ _ _ Hin), bind_ret.
  rewrite (get_partial_shape_read _ _ Hsh), bind_ret.
  unfold resolved_axes.
  cbn [rank dim_is_static dim_get_length or_throw].
  assert (Hlen : ∀ l : list Z,
    bool_decide (Z.of_nat (length l) ≤ Z.of_nat (length dims))
    = bool_decide (length l ≤ length dims)%nat).
  { intros l. apply bool_decide_ext. lia. }
  case_bool_decide as Hempty; rewrite !bind_ret; cbn iota; rewrite Hlen;
    (case_bool_decide; cbn [check]; [by rewrite bind_ret|done]).
Qed.

Lemma get_reduction_axes_from_attr_dynamic node axes input :
  axes_attribute node axes →
  get_ov_inputs node !! 0%nat = Some input →
  has_shape input PartialShapeDynamic →
  get_reduction_axes_from_attr infer_shape node
  = if bool_decide (axes = []) then
      Built (all_axes_range_trace infer_shape input) (Ok (Some (all_axes_range_node infer_shape input)))
    else
      Built [constant i64 [length axes] axes]
            (Ok (Some (constant i64 [length axes] axes))).
Proof.
  intros Hax Hin Hsh. unfold get_reduction_axes_from_attr.
  rewrite (get_attribute_value_ints_read _ _ Hax), bind_ret.
  rewrite (at_read _ _ _ Hin), bind_ret.
  rewrite (get_partial_shape_read _ _ Hsh), bind_ret.
  cbn [rank dim_is_static].
  case_bool_decide as Hempty.
  - by rewrite (get_dynamic_all_axes_range_eq _ _ Hin).
  - by rewrite !bind_ret.
Qed.

Lemma get_reduction_axes_from_input_absent node noop input :
  int_attribute node "noop_with_empty_axes" 0 noop →
  get_ov_inputs node !! 0%nat = Some input →
  no_axes_supplied node →
  get_reduction_axes_from_input infer_shape node
  = if bool_decide (noop ≠ 0) then Built [] (Ok None)
    else Built (all_axes_range_trace infer_shape input)
               (Ok (Some (all_axes_range_node infer_shape input))).
Proof.
  intros Hnoop Hin Habs. unfold get_reduction_axes_from_input.
  rewrite (get_attribute_value_int_read _ _ _ _ Hnoop), bind_ret.
  rewrite (at_read _ _ _ Hin), bind_ret.
  rewrite (get_dynamic_all_axes_range_eq _ _ Hin).
  destruct Habs as [Hone | (axes & Hax & Hshape)].
  - destruct (bool_decide_reflect (1 < length (get_ov_inputs node))%nat);
      [lia|].
    rewrite bind_ret. by case_bool_decide.
  - apply lookup_lt_Some in Hax as Hlt.
    destruct (bool_decide_reflect (1 < length (get_ov_inputs node))%nat);
      [|lia].
    rewrite (at_read _ _ _ Hax), bind_ret.
    destruct Hshape as [Hsh | Hsh];
      rewrite (get_partial_shape_read _ _ Hsh), bind_ret;
      cbn [ps_is_static forallb dim_is_static andb check rank length
           dim_get_length or_throw ps_get_shape dims_to_shape fmap
           option_fmap option_map];
      rewrite !bind_ret.
    + rewrite (bool_decide_eq_false_2 (Z.of_nat 0 ≠ 0)) by lia.
      rewrite bind_ret. by case_bool_decide.
    + rewrite (bool_decide_eq_true_2 (Z.of_nat 1 ≠ 0)) by lia.
      rewrite (bool_decide_eq_false_2 ([0%nat] ≠ [0%nat])) by naive_solver.
      rewrite bind_ret. by case_bool_decide.
Qed.

Lemma get_reduction_axes_from_input_not_static node noop input axes ps :
  int_attribute node "noop_with_empty_axes" 0 noop →
  get_ov_inputs node !! 0%nat = Some input →
  get_ov_inputs node !! 1%nat = Some axes →
  has_shape axes ps →
  ps_is_static ps = false →
  get_reduction_axes_from_input infer_shape node
  = Built [] (Throw NonStaticAxesShape).
Proof.
  intros Hnoop Hin Hax Hsh Hdyn. unfold get_reduction_axes_from_input.
  rewrite (get_attribute_value_int_read _ _ _ _ Hnoop), bind_ret.
  rewrite (at_read _ _ _ Hin), bind_ret.
  apply lookup_lt_Some in Hax as Hlt.
  destruct (bool_decide_reflect (1 < length (get_ov_inputs node))%nat);
    [|lia].
  rewrite (at_read _ _ _ Hax), bind_ret.
  rewrite (get_partial_shape_read _ _ Hsh), bind_ret.
  by rewrite Hdyn.
Qed.

End Resolvers.

(** ** Successful constructions, read backwards *)

Lemma bind_Ok_inv {A B} (m : Build A) (f : A → Build B) w b :
  m ≫= f = Built w (Ok b) →
  ∃ w1 a w2, m = Built w1 (Ok a) ∧ f a = Built w2 (Ok b) ∧ w = w1 ++ w2.
Proof.
  destruct m as [w1 [a|e]]; unfold mbind, Build_bind; cbn [outcome trace].
  - intros [= <- Hout]. exists w1, a, (trace (f a)).
    split_and!; [done| |done]. by rewrite <- Hout, Build_eta.
  - discriminate.
Qed.

Lemma or_throw_Ok_inv {A} (o : option A) e w a :
  or_throw o e = Built w (Ok a) → o = Some a ∧ w = [].
Proof. destruct o; cbn; by intros [= <- <-]. Qed.

Lemma at_Ok_inv {A} (v : list A) i w a :
  at_ v i = Built w (Ok a) → v !! i = Some a ∧ w = [].
Proof. apply or_throw_Ok_inv. Qed.

Lemma check_Ok_inv cond e w u :
  check cond e = Built w (Ok u) → cond = true ∧ w = [].
Proof. destruct cond; cbn; by intros [= <-]. Qed.

Lemma get_descriptor_Ok_inv o w d :
  get_descriptor o = Built w (Ok d) → has_descriptor o d ∧ w = [].
Proof. apply or_throw_Ok_inv. Qed.

Lemma get_element_type_Ok_inv o w et :
  get_element_type o = Built w (Ok et) → has_type o et ∧ w = [].
Proof.
  unfold get_element_type. intros H.
  apply bind_Ok_inv in H as (w1 & [et' ps] & w2 & Hd & [= <- <-] & ->).
  apply get_descriptor_Ok_inv in Hd as [Hd ->]. split; [by exists ps|done].
Qed.

Lemma get_attribute_value_int_Ok_inv node name default w v :
  get_attribute_value_int node name default = Built w (Ok v) →
  int_attribute node name default v ∧ w = [].
Proof.
  unfold get_attribute_value_int, int_attribute.
  destruct (attributes node !! name) as [[]|]; cbn; intros [= <- <-]; eauto.
Qed.

Lemma get_attribute_value_ints_Ok_inv node w axes :
  get_attribute_value_ints node "axes" [] = Built w (Ok axes) →
  axes_attribute node axes ∧ w = [].
Proof.
  unfold get_attribute_value_ints, axes_attribute.
  destruct (attributes node !! "axes") as [[]|]; cbn; intros [= <- <-]; eauto.
Qed.

(** An input of a node is a strictly smaller expression than the node. *)
Lemma output_size_input op args outs o :
  o ∈ args → (output_size o < node_size (OvNode op args outs))%nat.
Proof.
  cbn [node_size]. induction 1 as [o args | o o' args _ IH]; cbn [foldr]; lia.
Qed.

Lemma output_size_default n : output_size (default_output n) = node_size n.
Proof. reflexivity. Qed.

Lemma output_size_node o : node_size (get_node_shared_ptr o) = output_size o.
Proof. by destruct o. Qed.

(** ** The node constructors and the shared builder *)

Section Builder.
Variable infer_shape : op_kind → list Output → PartialShape.

Lemma make_shared_reduce op keep_dims data axes et :
  has_type data et →
  make_shared infer_shape (Reduce op keep_dims) [data; default_output axes]
  = emit (reduce_node infer_shape op keep_dims data axes et).
Proof.
  intros [ps Hd]. unfold make_shared, validate_and_infer_types.
  by rewrite (get_descriptor_read _ _ Hd), !bind_ret.
Qed.

Lemma make_shared_Exp x d :
  has_descriptor x d → d_element_type d ≠ boolean →
  make_shared infer_shape v0_Exp [x] = emit (exp_node x d).
Proof.
  intros Hd Hb. unfold make_shared, validate_and_infer_types.
  rewrite (get_descriptor_read _ _ Hd), bind_ret.
  rewrite (bool_decide_eq_true_2 _ Hb). cbn [check].
  by rewrite !bind_ret.
Qed.

Lemma make_shared_Log x d :
  has_descriptor x d → d_element_type d ≠ boolean →
  make_shared infer_shape v0_Log [x] = emit (log_node x d).
Proof.
  intros Hd Hb. unfold make_shared, validate_and_infer_types.
  rewrite (get_descriptor_read _ _ Hd), bind_ret.
  rewrite (bool_decide_eq_true_2 _ Hb). cbn [check].
  by rewrite !bind_ret.
Qed.

Lemma make_shared_Multiply x d :
  has_descriptor x d → d_element_type d ≠ boolean →
  make_shared infer_shape v1_Multiply [x; x] = emit (square_node x d).
Proof.
  intros Hd Hb. unfold make_shared, validate_and_infer_types.
  rewrite (get_descriptor_read _ _ Hd), !bind_ret.
  rewrite (bool_decide_eq_true_2 (d_element_type d = d_element_type d)) by done.
  cbn [check]. rewrite bind_ret.
  rewrite (bool_decide_eq_true_2 _ Hb). cbn [check].
  rewrite !bind_ret. by rewrite decide_True.
Qed.

Lemma make_shared_Exp_Ok_inv x w n :
  make_shared infer_shape v0_Exp [x] = Built w (Ok n) →
  ∃ d, has_descriptor x d ∧ d_element_type d ≠ boolean
       ∧ n = exp_node x d ∧ w = [n].
Proof.
  unfold make_shared, validate_and_infer_types. intros H.
  apply bind_Ok_inv in H as (w1 & outs & w2 & H1 & [= <- <-] & ->).
  apply bind_Ok_inv in H1 as (w3 & d & w4 & Hd & H1 & ->).
  apply get_descriptor_Ok_inv in Hd as [Hd ->].
  apply bind_Ok_inv in H1 as (w5 & [] & w6 & Hc & [= <- <-] & ->).
  apply check_Ok_inv in Hc as [Hc ->]. apply bool_decide_eq_true_1 in Hc.
  by exists d.
Qed.

Lemma make_shared_Multiply_Ok_inv x w n :
  make_shared infer_shape v1_Multiply [x; x] = Built w (Ok n) →
  ∃ d, has_descriptor x d ∧ d_element_type d ≠ boolean
       ∧ n = square_node x d ∧ w = [n].
Proof.
  intros H.
  destruct (node_outputs (get_node_shared_ptr x) !! get_index x) as [d|] eqn:Hd.
  - destruct (decide (d_element_type d = boolean)) as [Hb|Hb].
    + exfalso. revert H. unfold make_shared, validate_and_infer_types.
      rewrite (get_descriptor_read _ _ Hd), !bind_ret.
      rewrite (bool_decide_eq_true_2 (d_element_type d = d_element_type d))
        by done.
      cbn [check]. rewrite bind_ret.
      by rewrite (bool_decide_eq_false_2 (d_element_type d ≠ boolean))
        by naive_solver.
    + rewrite (make_shared_Multiply x d Hd Hb) in H.
      injection H as <- <-. by exists d.
  - exfalso. revert H. unfold make_shared, validate_and_infer_types.
    unfold get_descriptor. by rewrite Hd.
Qed.

(** The builder, once the [keepdims] attribute and the element type of its
    input have been read. *)
Lemma make_ov_reduction_op_eq op node x supported axes_as_attr keepdims et :
  int_attribute node "keepdims" 1 keepdims →
  has_type x et →
  make_ov_reduction_op infer_shape op node x supported axes_as_attr
  = if bool_decide (et ∈ supported) then
      reduction_axes ←
        (if axes_as_attr then get_reduction_axes_from_attr infer_shape node
         else get_reduction_axes_from_input infer_shape node);
      match reduction_axes with
      | Some axes =>
          emit (reduce_node infer_shape op (bool_decide (keepdims ≠ 0)) x axes et)
      | None =>
          first ← at_ (get_ov_inputs node) 0;
          mret (get_node_shared_ptr first)
      end
    else Built [] (Throw UnsupportedType).
Proof.
  intros Hk Ht. unfold make_ov_reduction_op.
  rewrite (get_attribute_value_int_read _ _ _ _ Hk), bind_ret.
  rewrite (get_element_type_read _ _ Ht), bind_ret.
  destruct (bool_decide (et ∈ supported)); cbn [check]; [|done].
  rewrite bind_ret.
  destruct (if axes_as_attr then _ else _) as [wr [[axes|]|e]];
    unfold mbind at 1 3, Build_bind; cbn [outcome trace].
  - by rewrite (make_shared_reduce _ _ _ _ _ Ht).
  - unfold identity. by rewrite bind_ret.
  - done.
Qed.

End Builder.

(** ** Properties of the attribute path (early era) *)

(** C1. On the attribute path, when the [axes] attribute is empty or absent
    and the first input has the statically known rank [r], the resolved axes
    are exactly [0, 1, ..., r-1], emitted as one [i64] constant of shape
    [{r}]; the shared builder then reduces over that constant, whichever
    reduction operator and input value it is instantiated with. *)
Theorem C1_empty_axes_resolve_to_monotonic_range
    infer_shape node input dims :
  axes_attribute node [] →
  get_ov_inputs node !! 0%nat = Some input →
  has_shape input (PartialShapeRanked dims) →
  let r := length dims in
  let axes := constant i64 [r] (Z.of_nat <$> seq 0 r) in
  get_reduction_axes_from_attr infer_shape node = Built [axes] (Ok (Some axes))
  ∧ ∀ op ov_input supported keepdims et,
      int_attribute node "keepdims" 1 keepdims →
      has_type ov_input et →
      et ∈ supported →
      let reduced :=
        reduce_node infer_shape op (bool_decide (keepdims ≠ 0)) ov_input axes et in
      make_ov_reduction_op infer_shape op node ov_input supported true
      = Built [axes; reduced] (Ok reduced).
Proof.
  intros Hax Hin Hsh r axes.
  assert (Hres : get_reduction_axes_from_attr infer_shape node
                 = Built [axes] (Ok (Some axes))).
  { rewrite (get_reduction_axes_from_attr_static _ _ _ _ _ Hax Hin Hsh).
    cbn zeta. unfold resolved_axes.
    rewrite (bool_decide_eq_true_2 ([] = [])) by done.
    rewrite get_monotonic_range_length.
    rewrite (bool_decide_eq_true_2 (length dims ≤ length dims)%nat) by lia.
    unfold axes, r, get_monotonic_range. by rewrite Nat2Z.id. }
  split; [exact Hres|].
  intros op ov_input supported keepdims et Hk Ht Hsup reduced.
  rewrite (make_ov_reduction_op_eq _ _ _ _ _ _ _ _ Hk Ht).
  rewrite (bool_decide_eq_true_2 _ Hsup), Hres.
  reflexivity.
Qed.

(** C5, as amended.  On the attribute path with a first input of unknown
    rank, the resolver falls back to the run-time range over all axes only
    when the [axes] attribute is empty or absent; a non-empty attribute is
    kept and emitted unchanged as a constant, without any check of the
    number of axes. *)
Theorem C5_unknown_rank_fallback_only_for_empty_axes
    infer_shape node axes input :
  axes_attribute node axes →
  get_ov_inputs node !! 0%nat = Some input →
  has_shape input PartialShapeDynamic →
  (axes = [] →
   get_reduction_axes_from_attr infer_shape node
   = Built (all_axes_range_trace infer_shape input)
           (Ok (Some (all_axes_range_node infer_shape input))))
  ∧ (axes ≠ [] →
     get_reduction_axes_from_attr infer_shape node
     = Built [constant i64 [length axes] axes]
             (Ok (Some (constant i64 [length axes] axes)))).
Proof.
  intros Hax Hin Hsh.
  rewrite (get_reduction_axes_from_attr_dynamic _ _ _ _ Hax Hin Hsh).
  split; intros H; by case_bool_decide.
Qed.

(** C6. With a first input of statically known rank [r], an [axes]
    attribute that lists more than [r] axes makes the resolver, and with it
    the shared builder on the attribute path, fail with [AxesRankTooLarge]
    before any node is built; with at most [r] axes the check passes and the
    resolver returns a constant. *)
Theorem C6_axes_count_checked_against_rank infer_shape node axes input dims :
  axes_attribute node axes →
  get_ov_inputs node !! 0%nat = Some input →
  has_shape input (PartialShapeRanked dims) →
  ((length dims < length axes)%nat →
   get_reduction_axes_from_attr infer_shape node
   = Built [] (Throw AxesRankTooLarge)
   ∧ ∀ op ov_input supported keepdims et,
       int_attribute node "keepdims" 1 keepdims →
       has_type ov_input et →
       et ∈ supported →
       make_ov_reduction_op infer_shape op node ov_input supported true
       = Built [] (Throw AxesRankTooLarge))
  ∧ ((length axes ≤ length dims)%nat →
     ∃ constant_axes,
       get_reduction_axes_from_attr infer_shape node
       = Built [constant_axes] (Ok (Some constant_axes))).
Proof.
  intros Hax Hin Hsh.
  pose proof (get_reduction_axes_from_attr_static infer_shape _ _ _ _
                Hax Hin Hsh) as Hres.
  cbn zeta in Hres. unfold resolved_axes in Hres.
  split.
  - intros Hlt.
    assert (Hne : axes ≠ []) by (intros ->; cbn in Hlt; lia).
    rewrite (bool_decide_eq_false_2 _ Hne) in Hres.
    rewrite (bool_decide_eq_false_2 (length axes ≤ length dims)%nat) in Hres
      by lia.
    split; [exact Hres|].
    intros op ov_input supported keepdims et Hk Ht Hsup.
    rewrite (make_ov_reduction_op_eq _ _ _ _ _ _ _ _ Hk Ht).
    by rewrite (bool_decide_eq_true_2 _ Hsup), Hres.
  - intros Hle. destruct (bool_decide (axes = [])).
    + rewrite get_monotonic_range_length in Hres.
      rewrite (bool_decide_eq_true_2 (length dims ≤ length dims)%nat) in Hres
        by lia.
      eauto.
    + rewrite (bool_decide_eq_true_2 _ Hle) in Hres. eauto.
Qed.

(** ** Properties of the input path (later era) *)

(** C2. On the input path, a second input whose shape is not static makes
    the resolver fail with [NonStaticAxesShape], whatever the value of
    [noop_with_empty_axes]; nothing has been built at that point, and the
    later-era [reduce_sum] fails in the same way on any input it accepts. *)
Theorem C2_non_static_axes_shape_is_rejected
    infer_shape node noop input axes ps :
  int_attribute node "noop_with_empty_axes" 0 noop →
  get_ov_inputs node !! 0%nat = Some input →
  get_ov_inputs node !! 1%nat = Some axes →
  has_shape axes ps →
  ps_is_static ps = false →
  get_reduction_axes_from_input infer_shape node
  = Built [] (Throw NonStaticAxesShape)
  ∧ ∀ keepdims et,
      int_attribute node "keepdims" 1 keepdims →
      has_type input et →
      et ∈ supported_types_v2 →
      set_13.reduce_sum infer_shape node = Built [] (Throw NonStaticAxesShape).
Proof.
  intros Hnoop Hin Hax Hsh Hdyn.
  pose proof (get_reduction_axes_from_input_not_static infer_shape _ _ _ _ _
                Hnoop Hin Hax Hsh Hdyn) as Hres.
  split; [exact Hres|].
  intros keepdims et Hk Ht Hsup. unfold set_13.reduce_sum.
  rewrite (at_read _ _ _ Hin), bind_ret.
  rewrite (make_ov_reduction_op_eq _ _ _ _ _ _ _ _ Hk Ht).
  by rewrite (bool_decide_eq_true_2 _ Hsup), Hres.
Qed.

(** The identity branch of the later era: with [noop_with_empty_axes] set
    and no axes supplied, nothing is built and the result is the default
    output of the node that produces the first input. *)
Lemma set_13_reduce_sum_noop infer_shape node noop keepdims input et :
  int_attribute node "noop_with_empty_axes" 0 noop →
  noop ≠ 0 →
  no_axes_supplied node →
  int_attribute node "keepdims" 1 keepdims →
  get_ov_inputs node !! 0%nat = Some input →
  has_type input et →
  et ∈ supported_types_v2 →
  set_13.reduce_sum infer_shape node
  = Built [] (Ok [default_output (get_node_shared_ptr input)]).
Proof.
  intros Hnoop Hnz Habs Hk Hin Ht Hsup. unfold set_13.reduce_sum.
  rewrite (at_read _ _ _ Hin), bind_ret.
  rewrite (make_ov_reduction_op_eq _ _ _ _ _ _ _ _ Hk Ht).
  rewrite (bool_decide_eq_true_2 _ Hsup).
  rewrite (get_reduction_axes_from_input_absent _ _ _ _ Hnoop Hin Habs).
  rewrite (bool_decide_eq_true_2 _ Hnz).
  unfold mbind at 2, Build_bind; cbn [outcome trace].
  by rewrite (at_read _ _ _ Hin).
Qed.

(** When the first input is output 0 of its node, that result is the first
    input itself. *)
Lemma set_13_reduce_sum_noop_identity infer_shape node noop keepdims input et :
  int_attribute node "noop_with_empty_axes" 0 noop →
  noop ≠ 0 →
  no_axes_supplied node →
  int_attribute node "keepdims" 1 keepdims →
  get_ov_inputs node !! 0%nat = Some input →
  has_type input et →
  et ∈ supported_types_v2 →
  get_index input = 0%nat →
  set_13.reduce_sum infer_shape node = Built [] (Ok [input]).
Proof.
  intros Hnoop Hnz Habs Hk Hin Ht Hsup Hidx.
  rewrite (set_13_reduce_sum_noop _ _ _ _ _ _ Hnoop Hnz Habs Hk Hin Ht Hsup).
  destruct input as [n i]. cbn in Hidx. by subst i.
Qed.

(** C3, evaluated on the code.  A later-era node with
    [noop_with_empty_axes = 1] and no second input, whose first input is
    output 1 of a two-output node (the part of shape [2, 2]): no node is
    built, but the translator returns output 0 of that node (the part of
    shape [2, 1]), which is not the first input. *)
Theorem C3_noop_returns_default_output_of_producer :
  let input := OutputOf variadic_split 1 in
  let node := OnnxNode [input] {[ "noop_with_empty_axes" := AttrInt 1 ]} in
  no_axes_supplied node
  ∧ has_descriptor input (Descriptor f32 (PartialShapeRanked [Dim 2; Dim 2]))
  ∧ set_13.reduce_sum no_inference node
    = Built [] (Ok [OutputOf variadic_split 0])
  ∧ OutputOf variadic_split 0 ≠ input
  ∧ has_descriptor (OutputOf variadic_split 0)
      (Descriptor f32 (PartialShapeRanked [Dim 2; Dim 1])).
Proof.
  cbn zeta. split_and!.
  - left. cbn. lia.
  - reflexivity.
  - by vm_compute.
  - discriminate.
  - reflexivity.
Qed.

(** ** The early-era translators, forwards and backwards *)

Section Early.
Variable infer_shape : op_kind → list Output → PartialShape.

Lemma supported_v1_not_boolean et : et ∈ supported_types_v1 → et ≠ boolean.
Proof.
  intros H ->. revert H.
  apply (bool_decide_eq_false_1 (boolean ∈ supported_types_v1)).
  reflexivity.
Qed.

(** Every way the attribute path can end: an exception with nothing built,
    one constant, or the run-time range over the first input. *)
Lemma get_reduction_axes_from_attr_cases node :
  (∃ e, get_reduction_axes_from_attr infer_shape node = Built [] (Throw e))
  ∨ (∃ values,
       get_reduction_axes_from_attr infer_shape node
       = Built [constant i64 [length values] values]
               (Ok (Some (constant i64 [length values] values))))
  ∨ (∃ input,
       get_reduction_axes_from_attr infer_shape node
       = Built (all_axes_range_trace infer_shape input)
               (Ok (Some (all_axes_range_node infer_shape input)))).
Proof.
  destruct (get_attribute_value_ints node "axes" []) as [w0 [axes|e]] eqn:Hax.
  2:{ left. exists e. unfold get_reduction_axes_from_attr. rewrite Hax.
      revert Hax. unfold get_attribute_value_ints.
      destruct (attributes node !! "axes") as [[]|]; by intros [= <- <-]. }
  apply get_attribute_value_ints_Ok_inv in Hax as [Hax ->].
  destruct (get_ov_inputs node !! 0%nat) as [input|] eqn:Hin.
  2:{ left. exists OutOfRange. unfold get_reduction_axes_from_attr.
      rewrite (get_attribute_value_ints_read _ _ Hax), bind_ret.
      unfold at_. by rewrite Hin. }
  destruct (node_outputs (get_node_shared_ptr input) !! get_index input)
    as [[et ps]|] eqn:Hd.
  2:{ left. exists OutOfRange. unfold get_reduction_axes_from_attr.
      rewrite (get_attribute_value_ints_read _ _ Hax), bind_ret.
      rewrite (at_read _ _ _ Hin), bind_ret.
      unfold get_partial_shape, get_descriptor. by rewrite Hd. }
  assert (Hsh : has_shape input ps) by by exists et.
  destruct ps as [|dims].
  - rewrite (get_reduction_axes_from_attr_dynamic _ _ _ _ Hax Hin Hsh).
    case_bool_decide; eauto.
  - rewrite (get_reduction_axes_from_attr_static _ _ _ _ _ Hax Hin Hsh).
    cbn zeta. case_bool_decide; eauto.
Qed.

Lemma get_reduction_axes_from_attr_Ok node w r :
  get_reduction_axes_from_attr infer_shape node = Built w (Ok r) →
  ∃ axes, r = Some axes ∧ Forall (λ n, axes_op (node_op n) = true) w.
Proof.
  destruct (get_reduction_axes_from_attr_cases node)
    as [[e ->] | [[values ->] | [input ->]]]; [done|..];
    intros [= <- <-]; eexists; split; try done;
    repeat constructor.
Qed.

Lemma make_ov_reduction_op_attr_Ok op node x supported w n :
  make_ov_reduction_op infer_shape op node x supported true = Built w (Ok n) →
  ∃ keepdims et axes_trace axes,
    int_attribute node "keepdims" 1 keepdims
    ∧ has_type x et
    ∧ et ∈ supported
    ∧ get_reduction_axes_from_attr infer_shape node
      = Built axes_trace (Ok (Some axes))
    ∧ n = reduce_node infer_shape op (bool_decide (keepdims ≠ 0)) x axes et
    ∧ w = axes_trace ++ [n].
Proof.
  intros H. pose proof H as H0. unfold make_ov_reduction_op in H0.
  apply bind_Ok_inv in H0 as (? & keepdims & ? & Hk & H0 & _).
  apply get_attribute_value_int_Ok_inv in Hk as [Hk _].
  apply bind_Ok_inv in H0 as (? & et & ? & Ht & _ & _).
  apply get_element_type_Ok_inv in Ht as [Ht _].
  rewrite (make_ov_reduction_op_eq _ _ _ _ _ _ _ _ Hk Ht) in H.
  destruct (bool_decide_reflect (et ∈ supported)) as [Hsup|]; [|done].
  apply bind_Ok_inv in H as (wa & r & w2 & Hr & H & ->).
  destruct (get_reduction_axes_from_attr_Ok _ _ _ Hr) as [axes [-> _]].
  injection H as <- <-.
  by exists keepdims, et, wa, axes.
Qed.

Lemma has_type_default_reduce op keep_dims data axes et :
  has_descriptor
    (default_output (reduce_node infer_shape op keep_dims data axes et))
    (reduced_descriptor infer_shape op keep_dims data axes et).
Proof. reflexivity. Qed.

(** Forwards: the seven direct translators. *)
Lemma reduce_direct_run op node input d keepdims axes_trace axes :
  reads infer_shape node input d keepdims axes_trace axes →
  let reduced := reduce_node infer_shape op (bool_decide (keepdims ≠ 0))
                   input axes (d_element_type d) in
  set_1.reduce_direct infer_shape op node
  = Built (axes_trace ++ [reduced]) (Ok [default_output reduced]).
Proof.
  intros (Hin & Hd & Hk & Hsup & Hax) reduced. unfold set_1.reduce_direct.
  rewrite (at_read _ _ _ Hin), bind_ret.
  assert (Ht : has_type input (d_element_type d))
    by (exists (d_partial_shape d); by destruct d).
  rewrite (make_ov_reduction_op_eq _ _ _ _ _ _ _ _ Hk Ht).
  rewrite (bool_decide_eq_true_2 _ Hsup), Hax.
  by build_run.
Qed.

Lemma reduce_log_sum_run node input d keepdims axes_trace axes :
  reads infer_shape node input d keepdims axes_trace axes →
  let keep_dims := bool_decide (keepdims ≠ 0) in
  let sum := reduce_node infer_shape v1_ReduceSum keep_dims input axes
               (d_element_type d) in
  let log := log_node (default_output sum)
               (reduced_descriptor infer_shape v1_ReduceSum keep_dims input axes
                  (d_element_type d)) in
  set_1.reduce_log_sum infer_shape node
  = Built (axes_trace ++ [sum; log]) (Ok [default_output log]).
Proof.
  intros (Hin & Hd & Hk & Hsup & Hax) keep_dims sum log.
  unfold set_1.reduce_log_sum.
  rewrite (at_read _ _ _ Hin), bind_ret.
  assert (Ht : has_type input (d_element_type d))
    by (exists (d_partial_shape d); by destruct d).
  rewrite (make_ov_reduction_op_eq _ _ _ _ _ _ _ _ Hk Ht).
  rewrite (bool_decide_eq_true_2 _ Hsup), Hax.
  build_run.
  rewrite (make_shared_Log infer_shape _ _
             (has_type_default_reduce v1_ReduceSum _ input axes _)
             (supported_v1_not_boolean _ Hsup)).
  by build_run.
Qed.

Lemma reduce_log_sum_exp_run node input d keepdims axes_trace axes :
  reads infer_shape node input d keepdims axes_trace axes →
  let keep_dims := bool_decide (keepdims ≠ 0) in
  let exp := exp_node input d in
  let sum := reduce_node infer_shape v1_ReduceSum keep_dims
               (default_output exp) axes (d_element_type d) in
  let log := log_node (default_output sum)
               (reduced_descriptor infer_shape v1_ReduceSum keep_dims (default_output exp)
                  axes (d_element_type d)) in
  set_1.reduce_log_sum_exp infer_shape node
  = Built (exp :: axes_trace ++ [sum; log]) (Ok [default_output log]).
Proof.
  intros (Hin & Hd & Hk & Hsup & Hax) keep_dims exp sum log.
  unfold set_1.reduce_log_sum_exp.
  rewrite (at_read _ _ _ Hin), bind_ret.
  rewrite (make_shared_Exp infer_shape _ _ Hd
             (supported_v1_not_boolean _ Hsup)).
  build_run.
  assert (Ht : has_type (default_output exp) (d_element_type d))
    by (exists (d_partial_shape d); by destruct d).
  rewrite (make_ov_reduction_op_eq _ _ _ _ _ _ _ _ Hk Ht).
  rewrite (bool_decide_eq_true_2 _ Hsup), Hax.
  build_run.
  rewrite (make_shared_Log infer_shape _ _
             (has_type_default_reduce v1_ReduceSum _
                (default_output exp) axes _)
             (supported_v1_not_boolean _ Hsup)).
  by build_run.
Qed.

Lemma reduce_sum_square_run node input d keepdims axes_trace axes :
  reads infer_shape node input d keepdims axes_trace axes →
  let square := square_node input d in
  let sum := reduce_node infer_shape v1_ReduceSum (bool_decide (keepdims ≠ 0))
               (default_output square) axes (d_element_type d) in
  set_1.reduce_sum_square infer_shape node
  = Built (square :: axes_trace ++ [sum]) (Ok [default_output sum]).
Proof.
  intros (Hin & Hd & Hk & Hsup & Hax) square sum.
  unfold set_1.reduce_sum_square.
  rewrite (at_read _ _ _ Hin), bind_ret.
  rewrite (make_shared_Multiply infer_shape _ _ Hd
             (supported_v1_not_boolean _ Hsup)).
  build_run.
  assert (Ht : has_type (default_output square) (d_element_type d))
    by (exists (d_partial_shape d); by destruct d).
  rewrite (make_ov_reduction_op_eq _ _ _ _ _ _ _ _ Hk Ht).
  rewrite (bool_decide_eq_true_2 _ Hsup), Hax.
  by build_run.
Qed.

(** Backwards: a translation that succeeded has read all of [reads]. *)
Lemma has_type_descriptor x et :
  has_type x et → ∃ d, has_descriptor x d ∧ d_element_type d = et.
Proof. intros [ps H]. by exists (Descriptor et ps). Qed.

Lemma builder_reads op node input w n :
  get_ov_inputs node !! 0%nat = Some input →
  make_ov_reduction_op infer_shape op node input supported_types_v1 true
  = Built w (Ok n) →
  ∃ d keepdims axes_trace axes, reads infer_shape node input d keepdims axes_trace axes.
Proof.
  intros Hin H.
  apply make_ov_reduction_op_attr_Ok
    in H as (keepdims & et & wa & axes & Hk & Ht & Hsup & Hax & _ & _).
  apply has_type_descriptor in Ht as (d & Hd & <-).
  by exists d, keepdims, wa, axes.
Qed.

Lemma builder_over_node_reads op node input d wrapped w n :
  get_ov_inputs node !! 0%nat = Some input →
  has_descriptor input d →
  node_outputs wrapped = [d] →
  make_ov_reduction_op infer_shape op node (default_output wrapped)
    supported_types_v1 true = Built w (Ok n) →
  ∃ keepdims axes_trace axes, reads infer_shape node input d keepdims axes_trace axes.
Proof.
  intros Hin Hd Hout H.
  apply make_ov_reduction_op_attr_Ok
    in H as (keepdims & et & wa & axes & Hk & [ps Ht] & Hsup & Hax & _ & _).
  unfold has_descriptor in Ht. cbn in Ht. rewrite Hout in Ht.
  injection Ht as Ht. subst d.
  by exists keepdims, wa, axes.
Qed.

Lemma early_reads t node w outs :
  early infer_shape t node = Built w (Ok outs) →
  ∃ input d keepdims axes_trace axes,
    reads infer_shape node input d keepdims axes_trace axes.
Proof.
  intros H.
  assert (Hdirect : ∀ op,
    set_1.reduce_direct infer_shape op node = Built w (Ok outs) →
    ∃ input d keepdims axes_trace axes,
      reads infer_shape node input d keepdims axes_trace axes).
  { intros op Hop. unfold set_1.reduce_direct in Hop.
    apply bind_Ok_inv in Hop as (? & input & ? & Hin & Hop & _).
    apply at_Ok_inv in Hin as [Hin _].
    apply bind_Ok_inv in Hop as (? & n & ? & Hb & _ & _).
    exists input. by eapply builder_reads. }
  destruct t; cbn [early] in H; try (by eapply Hdirect).
  - unfold set_1.reduce_log_sum in H.
    apply bind_Ok_inv in H as (? & input & ? & Hin & H & _).
    apply at_Ok_inv in Hin as [Hin _].
    apply bind_Ok_inv in H as (? & n & ? & Hb & _ & _).
    exists input. by eapply builder_reads.
  - unfold set_1.reduce_log_sum_exp in H.
    apply bind_Ok_inv in H as (? & input & ? & Hin & H & _).
    apply at_Ok_inv in Hin as [Hin _].
    apply bind_Ok_inv in H as (? & e & ? & He & H & _).
    apply make_shared_Exp_Ok_inv in He as (d & Hd & _ & -> & _).
    apply bind_Ok_inv in H as (? & n & ? & Hb & _ & _).
    exists input, d.
    exact (builder_over_node_reads _ _ _ _ (exp_node input d) _ _
             Hin Hd eq_refl Hb).
  - unfold set_1.reduce_sum_square in H.
    apply bind_Ok_inv in H as (? & input & ? & Hin & H & _).
    apply at_Ok_inv in Hin as [Hin _].
    apply bind_Ok_inv in H as (? & m & ? & Hm & H & _).
    apply make_shared_Multiply_Ok_inv in Hm as (d & Hd & _ & -> & _).
    apply bind_Ok_inv in H as (? & n & ? & Hb & _ & _).
    exists input, d.
    exact (builder_over_node_reads _ _ _ _ (square_node input d) _ _
             Hin Hd eq_refl Hb).
Qed.

Lemma early_run t node input d keepdims axes_trace axes :
  reads infer_shape node input d keepdims axes_trace axes →
  early infer_shape t node
  = Built (built_first t input d ++ axes_trace
           ++ built_last infer_shape t input d keepdims axes)
          (Ok [default_output (result_of infer_shape t input d keepdims axes)]).
Proof.
  intros H. destruct t; cbn [early built_first app].
  - exact (reduce_log_sum_run _ _ _ _ _ _ H).
  - exact (reduce_log_sum_exp_run _ _ _ _ _ _ H).
  - exact (reduce_direct_run v4_ReduceL1 _ _ _ _ _ _ H).
  - exact (reduce_direct_run v4_ReduceL2 _ _ _ _ _ _ H).
  - exact (reduce_direct_run v1_ReduceMax _ _ _ _ _ _ H).
  - exact (reduce_direct_run v1_ReduceMean _ _ _ _ _ _ H).
  - exact (reduce_direct_run v1_ReduceMin _ _ _ _ _ _ H).
  - exact (reduce_direct_run v1_ReduceProd _ _ _ _ _ _ H).
  - exact (reduce_direct_run v1_ReduceSum _ _ _ _ _ _ H).
  - exact (reduce_sum_square_run _ _ _ _ _ _ H).
Qed.

Lemma result_of_larger t input d keepdims axes :
  (output_size input < node_size (result_of infer_shape t input d keepdims axes))%nat.
Proof.
  assert (Hdata : (output_size input ≤ output_size (data_of t input d))%nat).
  { destruct t; cbn; lia. }
  assert (Hred : (output_size (data_of t input d)
                  < node_size (reduced_of infer_shape t input d keepdims axes))%nat).
  { apply output_size_input. left. }
  destruct t; cbn [result_of]; try lia;
    (eapply Nat.lt_trans; [eapply Nat.le_lt_trans; [exact Hdata|exact Hred]|]);
    apply (output_size_input _ _ _ (default_output _)); left.
Qed.

End Early.

(** ** Properties of the early-era translators *)

(** C10. On the attribute path the resolver never returns the null pointer,
    so in the early era the identity branch of the builder is not taken:
    any translation that succeeds, whatever the [axes] and
    [noop_with_empty_axes] attributes, has built a reduction node, and the
    node it returns was built by it and is not the node of its first
    input. *)
Theorem C10_early_era_always_builds_a_reduction infer_shape node :
  (∀ w r,
     get_reduction_axes_from_attr infer_shape node = Built w (Ok r) →
     ∃ axes, r = Some axes)
  ∧ ∀ t w outs,
      early infer_shape t node = Built w (Ok outs) →
      ∃ input reduced result,
        get_ov_inputs node !! 0%nat = Some input
        ∧ reduced ∈ w
        ∧ (∃ keep_dims, node_op reduced = Reduce (operator_of t) keep_dims)
        ∧ result ∈ w
        ∧ outs = [default_output result]
        ∧ result ≠ get_node_shared_ptr input
        ∧ default_output result ≠ input.
Proof.
  split.
  - intros w r H.
    destruct (get_reduction_axes_from_attr_Ok _ _ _ _ H) as (axes & -> & _).
    by exists axes.
  - intros t w outs H.
    destruct (early_reads _ _ _ _ _ H)
      as (input & d & keepdims & axes_trace & axes & Hreads).
    rewrite (early_run _ _ _ _ _ _ _ _ Hreads) in H.
    injection H as <- <-.
    assert (Hsize := result_of_larger infer_shape t input d keepdims axes).
    exists input, (reduced_of infer_shape t input d keepdims axes),
           (result_of infer_shape t input d keepdims axes).
    split_and!.
    + by destruct Hreads.
    + rewrite !elem_of_app. right. right. destruct t; cbn; set_solver.
    + by eexists.
    + rewrite !elem_of_app. right. right. destruct t; cbn; set_solver.
    + done.
    + intros Heq. rewrite Heq, output_size_node in Hsize.
      by apply Nat.lt_irrefl in Hsize.
    + intros Heq. apply (f_equal output_size) in Heq.
      rewrite output_size_default in Heq. rewrite Heq in Hsize.
      by apply Nat.lt_irrefl in Hsize.
Qed.

(** C7. Whenever [reduce_sum] translates a node, [reduce_log_sum_exp]
    translates it too, and conversely.  Where [reduce_sum] returns the sum
    reduction of the input over some axes node with some [keep_dims],
    [reduce_log_sum_exp] returns [Log] of the sum reduction, over the very
    same axes node and with the same [keep_dims], of [Exp] of the input.  It
    builds the [Exp] node first, then the nodes of the axes, then the
    reduction and the [Log] node, and nothing else: no maximum is taken and
    nothing is subtracted. *)
Theorem C7_log_sum_exp_is_log_of_sum_of_exp infer_shape node :
  (∀ w outs,
     set_1.reduce_sum infer_shape node = Built w (Ok outs) →
     ∃ input d keepdims axes_trace axes,
       reads infer_shape node input d keepdims axes_trace axes
       ∧ Forall (λ n, axes_op (node_op n) = true) axes_trace
       ∧ let keep_dims := bool_decide (keepdims ≠ 0) in
         let sum data :=
           reduce_node infer_shape v1_ReduceSum keep_dims data axes
             (d_element_type d) in
         let exp := exp_node input d in
         let log :=
           log_node (default_output (sum (default_output exp)))
             (reduced_descriptor infer_shape v1_ReduceSum keep_dims
                (default_output exp) axes (d_element_type d)) in
         w = axes_trace ++ [sum input]
         ∧ outs = [default_output (sum input)]
         ∧ set_1.reduce_log_sum_exp infer_shape node
           = Built (exp :: axes_trace ++ [sum (default_output exp); log])
                   (Ok [default_output log]))
  ∧ (∀ w outs,
       set_1.reduce_log_sum_exp infer_shape node = Built w (Ok outs) →
       ∃ w' outs', set_1.reduce_sum infer_shape node = Built w' (Ok outs')).
Proof.
  split.
  - intros w outs H.
    destruct (early_reads _ ReduceSum _ _ _ H)
      as (input & d & keepdims & axes_trace & axes & Hreads).
    exists input, d, keepdims, axes_trace, axes.
    split; [done|]. split.
    { destruct Hreads as (_ & _ & _ & _ & Hax).
      by destruct (get_reduction_axes_from_attr_Ok _ _ _ _ Hax) as (? & _ & ?). }
    cbn zeta.
    pose proof (early_run _ ReduceSum _ _ _ _ _ _ Hreads) as Hsum.
    cbn [early] in Hsum. rewrite Hsum in H. injection H as <- <-.
    split_and!; [done..|].
    exact (reduce_log_sum_exp_run _ _ _ _ _ _ _ Hreads).
  - intros w outs H.
    destruct (early_reads _ ReduceLogSumExp _ _ _ H)
      as (input & d & keepdims & axes_trace & axes & Hreads).
    pose proof (early_run _ ReduceSum _ _ _ _ _ _ Hreads) as Hsum.
    eauto.
Qed.

(** C8. Whenever [reduce_sum] translates a node, [reduce_sum_square]
    translates it too, and conversely.  Where [reduce_sum] returns the sum
    reduction of the input over some axes node with some [keep_dims],
    [reduce_sum_square] returns the sum reduction, over the very same axes
    node and with the same [keep_dims], of the product of the input with
    itself; the [Multiply] node is built first, and the same type check is
    made on its result. *)
Theorem C8_sum_square_is_sum_of_product infer_shape node :
  (∀ w outs,
     set_1.reduce_sum infer_shape node = Built w (Ok outs) →
     ∃ input d keepdims axes_trace axes,
       reads infer_shape node input d keepdims axes_trace axes
       ∧ let sum data :=
           reduce_node infer_shape v1_ReduceSum (bool_decide (keepdims ≠ 0))
             data axes (d_element_type d) in
         let square := square_node input d in
         w = axes_trace ++ [sum input]
         ∧ outs = [default_output (sum input)]
         ∧ node_inputs square = [input; input]
         ∧ has_descriptor (default_output square) d
         ∧ set_1.reduce_sum_square infer_shape node
           = Built (square :: axes_trace ++ [sum (default_output square)])
                   (Ok [default_output (sum (default_output square))]))
  ∧ (∀ w outs,
       set_1.reduce_sum_square infer_shape node = Built w (Ok outs) →
       ∃ w' outs', set_1.reduce_sum infer_shape node = Built w' (Ok outs')).
Proof.
  split.
  - intros w outs H.
    destruct (early_reads _ ReduceSum _ _ _ H)
      as (input & d & keepdims & axes_trace & axes & Hreads).
    exists input, d, keepdims, axes_trace, axes.
    split; [done|]. cbn zeta.
    pose proof (early_run _ ReduceSum _ _ _ _ _ _ Hreads) as Hsum.
    cbn [early] in Hsum. rewrite Hsum in H. injection H as <- <-.
    split_and!; [done..|].
    exact (reduce_sum_square_run _ _ _ _ _ _ _ Hreads).
  - intros w outs H.
    destruct (early_reads _ ReduceSumSquare _ _ _ H)
      as (input & d & keepdims & axes_trace & axes & Hreads).
    pose proof (early_run _ ReduceSum _ _ _ _ _ _ Hreads) as Hsum.
    eauto.
Qed.

(** ** Type validation *)

Section Validation.
Variable infer_shape : op_kind → list Output → PartialShape.

Lemma never_throws_bind {A B} e (m : Build A) (f : A → Build B) :
  never_throws e m →
  (∀ w a, m = Built w (Ok a) → never_throws e (f a)) →
  never_throws e (m ≫= f).
Proof.
  destruct m as [w [a|e']]; unfold never_throws, mbind, Build_bind;
    cbn [outcome trace]; [|intros H _ [= ->]; by apply H].
  intros _ Hf. by apply (Hf w a).
Qed.

Lemma never_throws_or_throw {A} e e' (o : option A) :
  e' ≠ e → never_throws e (or_throw o e').
Proof. unfold never_throws. destruct o; cbn; congruence. Qed.

Lemma never_throws_check e e' cond :
  e' ≠ e → never_throws e (check cond e').
Proof. unfold never_throws. destruct cond; cbn; congruence. Qed.

Lemma never_throws_get_partial_shape e o :
  e ≠ OutOfRange → never_throws e (get_partial_shape o).
Proof.
  intros He. apply never_throws_bind; [|done].
  by apply never_throws_or_throw.
Qed.

Lemma never_throws_attribute_int e node name default :
  e ≠ TypeMismatch → never_throws e (get_attribute_value_int node name default).
Proof.
  unfold never_throws, get_attribute_value_int.
  destruct (attributes node !! name) as [[]|]; cbn; congruence.
Qed.

Lemma never_throws_attribute_ints e node name default :
  e ≠ TypeMismatch →
  never_throws e (get_attribute_value_ints node name default).
Proof.
  unfold never_throws, get_attribute_value_ints.
  destruct (attributes node !! name) as [[]|]; cbn; congruence.
Qed.

(** Neither axis resolver is where [UnsupportedType] comes from. *)
Lemma get_reduction_axes_from_attr_supported node :
  never_throws UnsupportedType (get_reduction_axes_from_attr infer_shape node).
Proof.
  unfold get_reduction_axes_from_attr.
  apply never_throws_bind; [by apply never_throws_attribute_ints|].
  intros _ axes _.
  apply never_throws_bind; [by apply never_throws_or_throw|].
  intros ? input [Hin _]%at_Ok_inv.
  apply never_throws_bind; [by apply never_throws_get_partial_shape|].
  intros _ ps _.
  rewrite (get_dynamic_all_axes_range_eq _ _ _ Hin).
  apply never_throws_bind.
  { destruct (bool_decide (axes = [])); [|done].
    destruct (dim_is_static (rank ps)); [|done].
    apply never_throws_bind; [by apply never_throws_or_throw|done]. }
  intros _ [resolved|range] _; [|done].
  apply never_throws_bind; [|done].
  destruct (dim_is_static (rank ps)); [|done].
  apply never_throws_bind; [by apply never_throws_or_throw|].
  intros. by apply never_throws_check.
Qed.

Lemma get_reduction_axes_from_input_supported node :
  never_throws UnsupportedType (get_reduction_axes_from_input infer_shape node).
Proof.
  unfold get_reduction_axes_from_input.
  apply never_throws_bind; [by apply never_throws_attribute_int|].
  intros _ noop _.
  apply never_throws_bind; [by apply never_throws_or_throw|].
  intros ? input [Hin _]%at_Ok_inv.
  rewrite (get_dynamic_all_axes_range_eq _ _ _ Hin).
  apply never_throws_bind.
  { destruct (bool_decide (1 < length (get_ov_inputs node))%nat); [|done].
    apply never_throws_bind; [by apply never_throws_or_throw|].
    intros _ axes _.
    apply never_throws_bind; [by apply never_throws_get_partial_shape|].
    intros _ ps _.
    apply never_throws_bind; [by apply never_throws_check|].
    intros _ _ _.
    apply never_throws_bind; [by apply never_throws_or_throw|].
    intros _ rank_length _.
    destruct (bool_decide (rank_length ≠ 0)); [|done].
    apply never_throws_bind; [by apply never_throws_or_throw|].
    intros _ shape _. by destruct (bool_decide (shape ≠ [0%nat])). }
  intros _ [axes|] _; [done|].
  by destruct (bool_decide (noop ≠ 0)).
Qed.

(** The builder throws [UnsupportedType] exactly when the element type of
    its input is not in the set it is given. *)
Lemma make_ov_reduction_op_unsupported
    op node x supported axes_as_attr keepdims et :
  int_attribute node "keepdims" 1 keepdims →
  has_type x et →
  get_ov_inputs node !! 0%nat = Some x ∨ axes_as_attr = true →
  outcome (make_ov_reduction_op infer_shape op node x supported axes_as_attr)
  = Throw UnsupportedType
  ↔ et ∉ supported.
Proof.
  intros Hk Ht Hfirst.
  rewrite (make_ov_reduction_op_eq _ _ _ _ _ _ _ _ Hk Ht).
  case_bool_decide as Hsup; [|done].
  split; [|done]. intros H. exfalso. revert H.
  apply never_throws_bind.
  { destruct axes_as_attr;
      [apply get_reduction_axes_from_attr_supported
      |apply get_reduction_axes_from_input_supported]. }
  intros w [axes|] Hr; [done|].
  destruct Hfirst as [Hin | ->].
  - by rewrite (at_read _ _ _ Hin), bind_ret.
  - by destruct (get_reduction_axes_from_attr_Ok _ _ _ _ Hr) as (? & ? & _).
Qed.

(** An early-era translation of an input of unsupported type: what has been
    built when [UnsupportedType] is thrown. *)
Lemma early_unsupported t node input d keepdims :
  get_ov_inputs node !! 0%nat = Some input →
  has_descriptor input d →
  int_attribute node "keepdims" 1 keepdims →
  d_element_type d ∉ supported_types_v1 →
  (built_first t input d ≠ [] → d_element_type d ≠ boolean) →
  early infer_shape t node
  = Built (built_first t input d) (Throw UnsupportedType).
Proof.
  intros Hin Hd Hk Hsup Hbool.
  assert (Ht : has_type input (d_element_type d))
    by (exists (d_partial_shape d); by destruct d).
  assert (Hdirect : ∀ op,
    set_1.reduce_direct infer_shape op node = Built [] (Throw UnsupportedType)).
  { intros op. unfold set_1.reduce_direct.
    rewrite (at_read _ _ _ Hin), bind_ret.
    rewrite (make_ov_reduction_op_eq _ _ _ _ _ _ _ _ Hk Ht).
    by rewrite (bool_decide_eq_false_2 _ Hsup). }
  destruct t; cbn [early built_first]; try apply Hdirect.
  - unfold set_1.reduce_log_sum.
    rewrite (at_read _ _ _ Hin), bind_ret.
    rewrite (make_ov_reduction_op_eq _ _ _ _ _ _ _ _ Hk Ht).
    by rewrite (bool_decide_eq_false_2 _ Hsup).
  - unfold set_1.reduce_log_sum_exp.
    rewrite (at_read _ _ _ Hin), bind_ret.
    rewrite (make_shared_Exp infer_shape _ _ Hd) by (by apply Hbool).
    rewrite bind_emit.
    assert (Hte : has_type (default_output (exp_node input d))
                    (d_element_type d))
      by (exists (d_partial_shape d); by destruct d).
    rewrite (make_ov_reduction_op_eq _ _ _ _ _ _ _ _ Hk Hte).
    by rewrite (bool_decide_eq_false_2 _ Hsup).
  - unfold set_1.reduce_sum_square.
    rewrite (at_read _ _ _ Hin), bind_ret.
    rewrite (make_shared_Multiply infer_shape _ _ Hd) by (by apply Hbool).
    rewrite bind_emit.
    assert (Hte : has_type (default_output (square_node input d))
                    (d_element_type d))
      by (exists (d_partial_shape d); by destruct d).
    rewrite (make_ov_reduction_op_eq _ _ _ _ _ _ _ _ Hk Hte).
    by rewrite (bool_decide_eq_false_2 _ Hsup).
Qed.

(** The element-wise constructors on a boolean argument, and the exceptions
    the [Log] constructor can end in. *)
Lemma make_shared_Exp_boolean x d :
  has_descriptor x d → d_element_type d = boolean →
  make_shared infer_shape v0_Exp [x] = throw NodeValidationFailure.
Proof.
  intros Hd Hb. unfold make_shared, validate_and_infer_types.
  rewrite (get_descriptor_read _ _ Hd), bind_ret.
  by rewrite (bool_decide_eq_false_2 (d_element_type d ≠ boolean))
    by naive_solver.
Qed.

Lemma make_shared_Multiply_boolean x d :
  has_descriptor x d → d_element_type d = boolean →
  make_shared infer_shape v1_Multiply [x; x] = throw NodeValidationFailure.
Proof.
  intros Hd Hb. unfold make_shared, validate_and_infer_types.
  rewrite (get_descriptor_read _ _ Hd), !bind_ret.
  rewrite (bool_decide_eq_true_2 (d_element_type d = d_element_type d))
    by done.
  cbn [check]. rewrite bind_ret.
  by rewrite (bool_decide_eq_false_2 (d_element_type d ≠ boolean))
    by naive_solver.
Qed.

Lemma never_throws_make_shared_Log e x :
  e ≠ OutOfRange → e ≠ NodeValidationFailure →
  never_throws e (make_shared infer_shape v0_Log [x]).
Proof.
  intros He1 He2. unfold make_shared, validate_and_infer_types.
  apply never_throws_bind; [|done].
  apply never_throws_bind; [by apply never_throws_or_throw|].
  intros _ d _.
  apply never_throws_bind; [by apply never_throws_check|done].
Qed.

Lemma never_throws_emit {B} e n (f : ov_node → Build B) :
  never_throws e (f n) → never_throws e (emit n ≫= f).
Proof. by rewrite bind_emit. Qed.

(** An early-era translation of an input of supported type does not end in
    [UnsupportedType]. *)
Lemma early_supported t node input et keepdims :
  get_ov_inputs node !! 0%nat = Some input →
  has_type input et →
  int_attribute node "keepdims" 1 keepdims →
  et ∈ supported_types_v1 →
  never_throws UnsupportedType (early infer_shape t node).
Proof.
  intros Hin Ht Hk Hsup.
  assert (Hbuilder : ∀ op x,
    has_type x et →
    never_throws UnsupportedType
      (make_ov_reduction_op infer_shape op node x supported_types_v1 true)).
  { intros op x Hx H.
    by apply (make_ov_reduction_op_unsupported _ _ _ _ _ _ _ Hk Hx) in H;
      [|right]. }
  assert (Hdirect : ∀ op,
    never_throws UnsupportedType (set_1.reduce_direct infer_shape op node)).
  { intros op. unfold set_1.reduce_direct.
    rewrite (at_read _ _ _ Hin), bind_ret.
    apply never_throws_bind; [by apply Hbuilder|done]. }
  pose proof Ht as [ps Hd].
  pose proof (supported_v1_not_boolean _ Hsup) as Hb.
  destruct t; cbn [early]; try apply Hdirect.
  - unfold set_1.reduce_log_sum.
    rewrite (at_read _ _ _ Hin), bind_ret.
    apply never_throws_bind; [by apply Hbuilder|].
    intros _ sum_node _.
    apply never_throws_bind; [by apply never_throws_make_shared_Log|done].
  - unfold set_1.reduce_log_sum_exp.
    rewrite (at_read _ _ _ Hin), bind_ret.
    rewrite (make_shared_Exp infer_shape _ _ Hd Hb).
    apply never_throws_emit.
    apply never_throws_bind; [apply Hbuilder; by exists ps|].
    intros _ sum_node _.
    apply never_throws_bind; [by apply never_throws_make_shared_Log|done].
  - unfold set_1.reduce_sum_square.
    rewrite (at_read _ _ _ Hin), bind_ret.
    rewrite (make_shared_Multiply infer_shape _ _ Hd Hb).
    apply never_throws_emit.
    apply never_throws_bind; [apply Hbuilder; by exists ps|done].
Qed.

End Validation.

(** C4, as amended.  Let the first input have an element type outside the
    supported set, and let [keepdims] be readable.  The translators that
    hand the first input itself to the builder (the seven direct ones,
    [reduce_log_sum] and the later-era [reduce_sum]) fail with
    [UnsupportedType] before any node is built.  [reduce_log_sum_exp] and
    [reduce_sum_square] build their element-wise node first and have the
    type of that node checked: when the element-wise constructor accepts the
    type, exactly that one node has been built when [UnsupportedType] is
    thrown. *)
Theorem C4_unsupported_type_and_what_is_built_before
    infer_shape node input d keepdims :
  get_ov_inputs node !! 0%nat = Some input →
  has_descriptor input d →
  int_attribute node "keepdims" 1 keepdims →
  (d_element_type d ∉ supported_types_v1 →
   ∀ t,
     match t with
     | ReduceLogSumExp =>
         d_element_type d ≠ boolean →
         set_1.reduce_log_sum_exp infer_shape node
         = Built [exp_node input d] (Throw UnsupportedType)
     | ReduceSumSquare =>
         d_element_type d ≠ boolean →
         set_1.reduce_sum_square infer_shape node
         = Built [square_node input d] (Throw UnsupportedType)
     | _ => early infer_shape t node = Built [] (Throw UnsupportedType)
     end)
  ∧ (d_element_type d ∉ supported_types_v2 →
     set_13.reduce_sum infer_shape node = Built [] (Throw UnsupportedType)).
Proof.
  intros Hin Hd Hk. split.
  - intros Hsup t.
    pose proof (early_unsupported infer_shape t _ _ _ _ Hin Hd Hk Hsup) as H.
    destruct t; cbn [built_first early] in H; try (by apply H);
      intros Hb; by apply H.
  - intros Hsup. unfold set_13.reduce_sum.
    rewrite (at_read _ _ _ Hin), bind_ret.
    assert (Ht : has_type input (d_element_type d))
      by (exists (d_partial_shape d); by destruct d).
    rewrite (make_ov_reduction_op_eq _ _ _ _ _ _ _ _ Hk Ht).
    by rewrite (bool_decide_eq_false_2 _ Hsup).
Qed.

(** C9. With a readable [keepdims] and a first input of element type [et]:
    an early-era translator fails with [UnsupportedType] exactly when [et]
    is none of [u32], [u64], [i32], [i64], [f16], [f32], [f64]; for
    [reduce_log_sum_exp] and [reduce_sum_square], whose element-wise
    constructor comes first and rejects [boolean] with its own exception,
    exactly when moreover [et] is not [boolean].  The later-era [reduce_sum]
    fails with [UnsupportedType] exactly when [et] is none of these seven
    types and not [bf16] either.  So a [bf16] input fails with
    [UnsupportedType] under every early-era translator, and the later-era
    [reduce_sum] does not fail with [UnsupportedType] on it. *)
Theorem C9_supported_types_of_the_two_eras
    infer_shape node input et keepdims :
  get_ov_inputs node !! 0%nat = Some input →
  has_type input et →
  int_attribute node "keepdims" 1 keepdims →
  (∀ t,
     outcome (early infer_shape t node) = Throw UnsupportedType
     ↔ (et ∉ [u32; u64; i32; i64; f16; f32; f64])
       ∧ match t with
         | ReduceLogSumExp | ReduceSumSquare => et ≠ boolean
         | _ => True
         end)
  ∧ (outcome (set_13.reduce_sum infer_shape node) = Throw UnsupportedType
     ↔ et ∉ [u32; u64; i32; i64; f16; f32; f64; bf16])
  ∧ (et = bf16 →
     (∀ t, outcome (early infer_shape t node) = Throw UnsupportedType)
     ∧ outcome (set_13.reduce_sum infer_shape node) ≠ Throw UnsupportedType).
Proof.
  intros Hin Ht Hk.
  assert (Hearly : ∀ t,
    outcome (early infer_shape t node) = Throw UnsupportedType
    ↔ (et ∉ supported_types_v1)
      ∧ match t with
        | ReduceLogSumExp | ReduceSumSquare => et ≠ boolean
        | _ => True
        end).
  { intros t. split.
    - intros H.
      destruct (decide (et ∈ supported_types_v1)) as [Hsup|Hsup].
      { by destruct (early_supported infer_shape t _ _ _ _ Hin Ht Hk Hsup). }
      split; [exact Hsup|].
      destruct Ht as [ps Hd].
      destruct t; try done; intros ->; revert H; cbn [early].
      + unfold set_1.reduce_log_sum_exp.
        rewrite (at_read _ _ _ Hin), bind_ret.
        by rewrite (make_shared_Exp_boolean infer_shape _ _ Hd).
      + unfold set_1.reduce_sum_square.
        rewrite (at_read _ _ _ Hin), bind_ret.
        by rewrite (make_shared_Multiply_boolean infer_shape _ _ Hd).
    - intros [Hsup Hb]. destruct Ht as [ps Hd].
      rewrite (early_unsupported infer_shape t _ _ _ _ Hin Hd Hk Hsup);
        [done|].
      by destruct t. }
  assert (Hlater :
    outcome (set_13.reduce_sum infer_shape node) = Throw UnsupportedType
    ↔ et ∉ supported_types_v2).
  { unfold set_13.reduce_sum.
    rewrite (at_read _ _ _ Hin), bind_ret. split.
    - intros H Hsup. revert H.
      apply never_throws_bind; [|done].
      intros H.
      by apply (make_ov_reduction_op_unsupported _ _ _ _ _ _ _ _ Hk Ht) in H;
        [|left].
    - intros Hsup.
      rewrite (make_ov_reduction_op_eq _ _ _ _ _ _ _ _ Hk Ht).
      by rewrite (bool_decide_eq_false_2 _ Hsup). }
  split_and!; [exact Hearly|exact Hlater|].
  intros ->. split.
  - intros t. apply Hearly. split; [|by destruct t].
    apply (bool_decide_eq_false_1 (bf16 ∈ supported_types_v1)). reflexivity.
  - rewrite Hlater. intros H. apply H.
    apply (bool_decide_eq_true_1 (bf16 ∈ supported_types_v2)). reflexivity.
Qed.

(** ** Concrete translations *)

(** C4 as first stated does not hold: on an [i8] input, which is not
    supported, [reduce_log_sum_exp] has already built the [Exp] node when it
    fails with [UnsupportedType]. *)
Lemma C4_exp_is_built_before_the_type_check :
  has_type (matrix i8) i8
  ∧ (i8 ∉ supported_types_v1)
  ∧ set_1.reduce_log_sum_exp no_inference (plain_node i8)
    = Built [exp_node (matrix i8)
               (Descriptor i8 (PartialShapeRanked [Dim 2; Dim 3]))]
            (Throw UnsupportedType)
  ∧ trace (set_1.reduce_log_sum_exp no_inference (plain_node i8)) ≠ [].
Proof.
  split_and!.
  - by eexists.
  - apply (bool_decide_eq_false_1 (i8 ∈ supported_types_v1)). reflexivity.
  - by vm_compute.
  - by vm_compute.
Qed.

(** C5 as first stated does not hold: with a first input of unknown rank and
    [axes = [1]], the resolver returns the constant [[1]], not the run-time
    range over all axes. *)
Lemma C5_given_axes_are_kept_under_unknown_rank :
  let node := OnnxNode [unranked f32] {[ "axes" := AttrInts [1] ]} in
  has_shape (unranked f32) PartialShapeDynamic
  ∧ get_reduction_axes_from_attr no_inference node
    = Built [constant i64 [1%nat] [1]] (Ok (Some (constant i64 [1%nat] [1])))
  ∧ get_reduction_axes_from_attr no_inference node
    ≠ Built (all_axes_range_trace no_inference (unranked f32))
            (Ok (Some (all_axes_range_node no_inference (unranked f32)))).
Proof.
  cbn zeta. split_and!.
  - by eexists.
  - by vm_compute.
  - by vm_compute.
Qed.

(** The translators at these operators. *)

Example reduce_sum_of_three_axes :
  set_1.reduce_sum no_inference three_axes_node
  = Built [] (Throw AxesRankTooLarge).
Proof. by vm_compute. Qed.

Example reduce_sum_of_unknown_rank :
  set_1.reduce_sum no_inference (OnnxNode [unranked f32] ∅)
  = let range := all_axes_range_node no_inference (unranked f32) in
    let sum :=
      reduce_node no_inference v1_ReduceSum true (unranked f32) range f32 in
    Built (all_axes_range_trace no_inference (unranked f32) ++ [sum])
          (Ok [default_output sum]).
Proof. by vm_compute. Qed.

Example reduce_log_sum_exp_of_boolean :
  set_1.reduce_log_sum_exp no_inference (plain_node boolean)
  = Built [] (Throw NodeValidationFailure).
Proof. by vm_compute. Qed.

Example later_reduce_sum_of_bf16 :
  set_13.reduce_sum no_inference (plain_node bf16)
  = let range := all_axes_range_node no_inference (matrix bf16) in
    let sum :=
      reduce_node no_inference v1_ReduceSum true (matrix bf16) range bf16 in
    Built (all_axes_range_trace no_inference (matrix bf16) ++ [sum])
          (Ok [default_output sum]).
Proof. by vm_compute. Qed.

Example later_reduce_sum_with_axes_input :
  let axes := parameter "axes" i64 (PartialShapeRanked [Dim 1]) in
  set_13.reduce_sum no_inference
    (OnnxNode [matrix f32; default_output axes] {[ "keepdims" := AttrInt 0 ]})
  = let sum :=
      reduce_node no_inference v1_ReduceSum false (matrix f32) axes f32 in
    Built [sum] (Ok [default_output sum]).
Proof. by vm_compute. Qed.

Example reduce_sum_of_float_keepdims :
  set_1.reduce_sum no_inference
    (OnnxNode [matrix boolean] {[ "keepdims" := AttrFloat 0 ]})
  = Built [] (Throw TypeMismatch).
Proof. by vm_compute. Qed.

(** The theorems above at these operators. *)

Lemma C1_on_a_matrix :
  get_reduction_axes_from_attr no_inference (plain_node f32)
  = Built [constant i64 [2%nat] [0; 1]]
          (Ok (Some (constant i64 [2%nat] [0; 1]))).
Proof.
  refine (proj1 (C1_empty_axes_resolve_to_monotonic_range no_inference
                   (plain_node f32) (matrix f32) [Dim 2; Dim 3] _ _ _)).
  - right. split; reflexivity.
  - reflexivity.
  - exists f32. reflexivity.
Defined.

Lemma C2_on_dynamic_axes :
  get_reduction_axes_from_input no_inference dynamic_axes_node
  = Built [] (Throw NonStaticAxesShape).
Proof.
  refine (proj1 (C2_non_static_axes_shape_is_rejected no_inference
                   dynamic_axes_node 0 (matrix f32)
                   (default_output
                      (parameter "axes" i64 (PartialShapeRanked [DimDynamic])))
                   (PartialShapeRanked [DimDynamic]) _ _ _ _ _)).
  - right. split; reflexivity.
  - reflexivity.
  - reflexivity.
  - exists i64. reflexivity.
  - reflexivity.
Defined.

Lemma C4_on_a_boolean_matrix :
  early no_inference ReduceSum (plain_node boolean)
  = Built [] (Throw UnsupportedType).
Proof.
  refine (proj1 (C4_unsupported_type_and_what_is_built_before no_inference
                   (plain_node boolean) (matrix boolean)
                   (Descriptor boolean (PartialShapeRanked [Dim 2; Dim 3])) 1
                   _ _ _) _ ReduceSum).
  - reflexivity.
  - reflexivity.
  - right. split; reflexivity.
  - apply (bool_decide_eq_false_1 (boolean ∈ supported_types_v1)).
    reflexivity.
Defined.

Lemma C5_on_given_axes :
  get_reduction_axes_from_attr no_inference
    (OnnxNode [unranked f32] {[ "axes" := AttrInts [1] ]})
  = Built [constant i64 [1%nat] [1]] (Ok (Some (constant i64 [1%nat] [1]))).
Proof.
  refine (proj2 (C5_unknown_rank_fallback_only_for_empty_axes no_inference
                   (OnnxNode [unranked f32] {[ "axes" := AttrInts [1] ]})
                   [1] (unranked f32) _ _ _) _).
  - left. reflexivity.
  - reflexivity.
  - exists f32. reflexivity.
  - discriminate.
Defined.

Lemma C6_on_three_axes :
  get_reduction_axes_from_attr no_inference three_axes_node
  = Built [] (Throw AxesRankTooLarge).
Proof.
  refine (proj1 (proj1 (C6_axes_count_checked_against_rank no_inference
                          three_axes_node [0; 1; 2] (matrix f32)
                          [Dim 2; Dim 3] _ _ _) _)).
  - left. reflexivity.
  - reflexivity.
  - exists f32. reflexivity.
  - cbn. lia.
Defined.

Lemma C7_on_a_matrix :
  ∃ w outs,
    set_1.reduce_log_sum_exp no_inference (plain_node f32) = Built w (Ok outs)
    ∧ length w = 4%nat.
Proof.
  destruct (proj1 (C7_log_sum_exp_is_log_of_sum_of_exp no_inference
                     (plain_node f32))
              (trace (set_1.reduce_sum no_inference (plain_node f32)))
              [default_output
                 (reduce_node no_inference v1_ReduceSum true (matrix f32)
                    (constant i64 [2%nat] [0; 1]) f32)]
              eq_refl)
    as (input & d & keepdims & axes_trace & axes & _ & _ & Hw & _ & Hlse).
  eexists _, _. split; [exact Hlse|].
  apply (f_equal length) in Hw. rewrite length_app in Hw.
  vm_compute (length (trace _)) in Hw. cbn [length] in Hw.
  cbn [length]. rewrite length_app. cbn [length]. lia.
Defined.

Lemma C8_on_a_matrix :
  ∃ w outs,
    set_1.reduce_sum_square no_inference (plain_node f32) = Built w (Ok outs)
    ∧ length w = 3%nat.
Proof.
  destruct (proj1 (C8_sum_square_is_sum_of_product no_inference
                     (plain_node f32))
              (trace (set_1.reduce_sum no_inference (plain_node f32)))
              [default_output
                 (reduce_node no_inference v1_ReduceSum true (matrix f32)
                    (constant i64 [2%nat] [0; 1]) f32)]
              eq_refl)
    as (input & d & keepdims & axes_trace & axes & _ & Hw & _ & _ & _ & Hsq).
  eexists _, _. split; [exact Hsq|].
  apply (f_equal length) in Hw. rewrite length_app in Hw.
  vm_compute (length (trace _)) in Hw. cbn [length] in Hw.
  cbn [length]. rewrite length_app. cbn [length]. lia.
Defined.

Lemma C9_on_a_bf16_matrix :
  outcome (early no_inference ReduceMax (plain_node bf16))
  = Throw UnsupportedType
  ∧ outcome (set_13.reduce_sum no_inference (plain_node bf16))
    ≠ Throw UnsupportedType.
Proof.
  refine ((λ H, conj (proj1 H ReduceMax) (proj2 H))
            (proj2 (proj2 (C9_supported_types_of_the_two_eras no_inference
                             (plain_node bf16) (matrix bf16) bf16 1
                             _ _ _)) eq_refl)).
  - reflexivity.
  - exists (PartialShapeRanked [Dim 2; Dim 3]). reflexivity.
  - right. split; reflexivity.
Defined.

Lemma C10_on_a_matrix :
  ∃ result,
    outcome (early no_inference ReduceSum (plain_node f32))
    = Ok [default_output result]
    ∧ result ≠ get_node_shared_ptr (matrix f32).
Proof.
  destruct (proj2 (C10_early_era_always_builds_a_reduction no_inference
                     (plain_node f32))
              ReduceSum
              (trace (set_1.reduce_sum no_inference (plain_node f32)))
              [default_output
                 (reduce_node no_inference v1_ReduceSum true (matrix f32)
                    (constant i64 [2%nat] [0; 1]) f32)]
              eq_refl)
    as (input & reduced & result & Hin & _ & _ & _ & Hout & Hne & _).
  injection Hin as <-. exists result. split; [|exact Hne].
  rewrite <- Hout. reflexivity.
Defined.

(** ** The input path when axes are supplied, and the shared fallback *)

Lemma ps_is_static_of_shape (shape : Shape) :
  ps_is_static (PartialShapeRanked (Dim <$> shape)) = true.
Proof. cbn. induction shape as [|n shape IH]; [done|]. by cbn. Qed.

Lemma ps_get_shape_of_shape (shape : Shape) :
  ps_get_shape (PartialShapeRanked (Dim <$> shape)) = Some shape.
Proof.
  cbn. induction shape as [|n shape IH]; [done|]. cbn. by rewrite IH.
Qed.

Lemma get_reduction_axes_from_input_supplied
    infer_shape node noop input axes shape :
  int_attribute node "noop_with_empty_axes" 0 noop →
  get_ov_inputs node !! 0%nat = Some input →
  axes_supplied node axes shape →
  get_reduction_axes_from_input infer_shape node
  = Built [] (Ok (Some (get_node_shared_ptr axes))).
Proof.
  intros Hnoop Hin (Hax & Hsh & Hscalar & Hzero).
  unfold get_reduction_axes_from_input.
  rewrite (get_attribute_value_int_read _ _ _ _ Hnoop), bind_ret.
  rewrite (at_read _ _ _ Hin), bind_ret.
  apply lookup_lt_Some in Hax as Hlt.
  destruct (bool_decide_reflect (1 < length (get_ov_inputs node))%nat);
    [|lia].
  rewrite (at_read _ _ _ Hax), bind_ret.
  rewrite (get_partial_shape_read _ _ Hsh), bind_ret.
  rewrite ps_is_static_of_shape, ps_get_shape_of_shape.
  cbn [check rank dim_get_length or_throw]. rewrite !bind_ret.
  rewrite length_fmap.
  rewrite (bool_decide_eq_true_2 (Z.of_nat (length shape) ≠ 0))
    by (destruct shape; [done|cbn; lia]).
  rewrite (bool_decide_eq_true_2 (shape ≠ [0%nat])) by done.
  by rewrite bind_ret.
Qed.

(** X1. On the input path, a second input whose static shape is neither
    scalar nor [{0}] is the axes: the resolver returns the node that produces
    it and builds nothing, whether [noop_with_empty_axes] is set or not.
    Only these two shapes count as empty: a shape such as [{2, 0}], which
    has no element either, is taken as axes. *)
Theorem X1_supplied_axes_are_returned_as_they_are
    infer_shape node noop input axes shape :
  int_attribute node "noop_with_empty_axes" 0 noop →
  get_ov_inputs node !! 0%nat = Some input →
  get_ov_inputs node !! 1%nat = Some axes →
  has_shape axes (PartialShapeRanked (Dim <$> shape)) →
  get_reduction_axes_from_input infer_shape node
  = if bool_decide (shape = [] ∨ shape = [0%nat]) then
      if bool_decide (noop ≠ 0) then Built [] (Ok None)
      else Built (all_axes_range_trace infer_shape input)
                 (Ok (Some (all_axes_range_node infer_shape input)))
    else Built [] (Ok (Some (get_node_shared_ptr axes))).
Proof.
  intros Hnoop Hin Hax Hsh. case_bool_decide as Hempty.
  - apply get_reduction_axes_from_input_absent; [done..|].
    right. exists axes. split; [done|].
    destruct Hempty as [-> | ->]; [by left|by right].
  - apply (get_reduction_axes_from_input_supplied _ _ noop input axes shape);
      [done|done|].
    split_and!; [done|done| |]; intros ->; apply Hempty; [by left|by right].
Qed.

(** X2. The later-era [reduce_sum] on a node with a second input of static
    shape, a readable [keepdims] and a supported element type.  When the
    shape is scalar or [{0}] the second input is ignored: the result is the
    pass-through for [noop_with_empty_axes] set, and the sum over the
    run-time range of all axes otherwise.  For any other shape the
    translation is one call of the [ReduceSum] constructor and nothing else:
    its data is the first input, its axes operand is the default output of
    the node that produces the second input, [keep_dims] is
    [keepdims != 0], and [noop_with_empty_axes] has no effect.  Whether the
    constructor accepts that operand is decided in the core library; so
    either it rejects it and nothing has been built, or exactly that one
    node has been built and its default output is the result. *)
Theorem X2_later_reduce_sum_with_a_second_input
    infer_shape node noop keepdims input et axes shape :
  int_attribute node "noop_with_empty_axes" 0 noop →
  int_attribute node "keepdims" 1 keepdims →
  get_ov_inputs node !! 0%nat = Some input →
  has_type input et →
  et ∈ supported_types_v2 →
  get_ov_inputs node !! 1%nat = Some axes →
  has_shape axes (PartialShapeRanked (Dim <$> shape)) →
  let keep_dims := bool_decide (keepdims ≠ 0) in
  let sum over :=
    reduce_node infer_shape v1_ReduceSum keep_dims input over et in
  (shape = [] ∨ shape = [0%nat] →
   set_13.reduce_sum infer_shape node
   = if bool_decide (noop ≠ 0) then
       Built [] (Ok [default_output (get_node_shared_ptr input)])
     else
       Built (all_axes_range_trace infer_shape input
              ++ [sum (all_axes_range_node infer_shape input)])
             (Ok [default_output
                    (sum (all_axes_range_node infer_shape input))]))
  ∧ (shape ≠ [] → shape ≠ [0%nat] →
     set_13.reduce_sum infer_shape node
     = (reduced ←
          make_shared infer_shape (Reduce v1_ReduceSum keep_dims)
            [input; default_output (get_node_shared_ptr axes)];
        mret [default_output reduced])
     ∧ ∀ w r,
         set_13.reduce_sum infer_shape node = Built w r →
         (w = [] ∧ r = Throw NodeValidationFailure)
         ∨ (w = [sum (get_node_shared_ptr axes)]
            ∧ r = Ok [default_output (sum (get_node_shared_ptr axes))])).
Proof.
  intros Hnoop Hk Hin Ht Hsup Hax Hsh keep_dims sum.
  assert (Hrun : set_13.reduce_sum infer_shape node
    = (reduction_axes ← get_reduction_axes_from_input infer_shape node;
       reduced ←
         match reduction_axes with
         | Some over =>
             make_shared infer_shape (Reduce v1_ReduceSum keep_dims)
               [input; default_output over]
         | None => mret (get_node_shared_ptr input)
         end;
       mret [default_output reduced])).
  { unfold set_13.reduce_sum, make_ov_reduction_op.
    rewrite (at_read _ _ _ Hin), bind_ret.
    rewrite (get_attribute_value_int_read _ _ _ _ Hk), bind_ret.
    rewrite (get_element_type_read _ _ Ht), bind_ret.
    rewrite (bool_decide_eq_true_2 _ Hsup). cbn [check]. rewrite bind_ret.
    destruct (get_reduction_axes_from_input infer_shape node)
      as [wr [[over|]|e]]; [| |done].
    - rewrite !bind_Built_Ok. unfold keep_dims.
      destruct (make_shared infer_shape _ _) as [w' [n|e]]; [|done].
      rewrite !bind_Built_Ok. cbn [trace outcome].
      by rewrite trace_ret, app_assoc.
    - unfold identity.
      rewrite (bind_ret (get_ov_inputs node)), (at_read _ _ _ Hin),
        (bind_ret input).
      by build_run. }
  split.
  - intros Hempty. rewrite Hrun.
    rewrite (get_reduction_axes_from_input_absent _ _ _ _ Hnoop Hin).
    + destruct (bool_decide (noop ≠ 0)); [done|].
      rewrite bind_Built_Ok, (make_shared_reduce _ _ _ _ _ _ Ht).
      by build_run.
    + right. exists axes. split; [done|].
      destruct Hempty as [-> | ->]; [by left|by right].
  - intros Hscalar Hzero. rewrite Hrun.
    rewrite (get_reduction_axes_from_input_supplied _ _ noop input axes shape)
      by done.
    rewrite bind_Built_Ok. cbn [app]. rewrite Build_eta. split; [done|].
    rewrite (make_shared_reduce _ _ _ _ _ _ Ht), bind_emit.
    intros w r [= <- <-]. by right.
Qed.

(** X3. The later-era [reduce_sum] on a node with a single input and
    [noop_with_empty_axes] zero or absent sums over all axes, and finds them
    at run time even when the rank of the input is statically known: it
    builds the seven nodes of the range [0, rank) over the shape of the
    input and then the [ReduceSum].  The shape of the input is never read:
    only its element type is. *)
Theorem X3_later_reduce_sum_over_all_axes
    infer_shape node keepdims input et :
  int_attribute node "noop_with_empty_axes" 0 0 →
  int_attribute node "keepdims" 1 keepdims →
  get_ov_inputs node = [input] →
  has_type input et →
  et ∈ supported_types_v2 →
  let range := all_axes_range_node infer_shape input in
  let sum :=
    reduce_node infer_shape v1_ReduceSum (bool_decide (keepdims ≠ 0)) input
      range et in
  set_13.reduce_sum infer_shape node
  = Built (all_axes_range_trace infer_shape input ++ [sum])
          (Ok [default_output sum])
  ∧ node_op range = v4_Range i64
  ∧ node_inputs range
    = [default_output (constant i32 [] [0]);
       default_output (rank_scalar_node infer_shape input);
       default_output (constant i32 [] [1])]
  ∧ node_inputs (rank_scalar_node infer_shape input)
    = [default_output (rank_of_node infer_shape input);
       default_output (constant i32 [1%nat] [0])]
  ∧ node_inputs (rank_of_node infer_shape input)
    = [default_output (shape_of_node infer_shape input)]
  ∧ node_inputs (shape_of_node infer_shape input) = [input].
Proof.
  intros Hnoop Hk Hinputs Ht Hsup range sum.
  split; [|done].
  assert (Hin : get_ov_inputs node !! 0%nat = Some input)
    by by rewrite Hinputs.
  unfold set_13.reduce_sum.
  rewrite (at_read _ _ _ Hin), bind_ret.
  rewrite (make_ov_reduction_op_eq _ _ _ _ _ _ _ _ Hk Ht).
  rewrite (bool_decide_eq_true_2 _ Hsup).
  rewrite (get_reduction_axes_from_input_absent _ _ _ _ Hnoop Hin)
    by (left; rewrite Hinputs; cbn; lia).
  rewrite (bool_decide_eq_false_2 (0 ≠ 0)) by (intros H; by apply H).
  by build_run.
Qed.

(** X4. On the attribute path with a first input of statically known rank
    [r], a non-empty [axes] attribute of at most [r] entries is emitted
    exactly as it is stored, as an [i64] constant of as many elements: the
    resolver checks the number of axes and nothing else, so negative axes,
    axes beyond the rank and repeated axes all pass, in the order given. *)
Theorem X4_given_axes_are_emitted_verbatim infer_shape node axes input dims :
  axes_attribute node axes →
  axes ≠ [] →
  get_ov_inputs node !! 0%nat = Some input →
  has_shape input (PartialShapeRanked dims) →
  (length axes ≤ length dims)%nat →
  get_reduction_axes_from_attr infer_shape node
  = Built [constant i64 [length axes] axes]
          (Ok (Some (constant i64 [length axes] axes))).
Proof.
  intros Hax Hne Hin Hsh Hle.
  rewrite (get_reduction_axes_from_attr_static _ _ _ _ _ Hax Hin Hsh).
  cbn zeta. unfold resolved_axes.
  rewrite (bool_decide_eq_false_2 _ Hne).
  by rewrite (bool_decide_eq_true_2 _ Hle).
Qed.

(** ** How the translators relate to one another *)

(** The builder fails in the same way for every reduction operator. *)
Lemma make_ov_reduction_op_throw_any_operator
    infer_shape op1 op2 node x supported axes_as_attr w e :
  make_ov_reduction_op infer_shape op1 node x supported axes_as_attr
  = Built w (Throw e) →
  make_ov_reduction_op infer_shape op2 node x supported axes_as_attr
  = Built w (Throw e).
Proof.
  unfold make_ov_reduction_op.
  destruct (get_attribute_value_int node "keepdims" 1) as [w0 [keepdims|e0]];
    [|done].
  rewrite !bind_Built_Ok.
  destruct (get_element_type x) as [w1 [et|e1]] eqn:Het; [|done].
  apply get_element_type_Ok_inv in Het as [Ht ->].
  rewrite !bind_Built_Ok.
  destruct (check (bool_decide (et ∈ supported)) UnsupportedType)
    as [w2 [[]|e2]]; [|done].
  rewrite !bind_Built_Ok.
  destruct (if axes_as_attr then _ else _) as [w3 [[axes|]|e3]]; [| |done].
  - rewrite !bind_Built_Ok, !(make_shared_reduce _ _ _ _ _ _ Ht).
    cbn [emit trace outcome]. discriminate.
  - by rewrite !bind_Built_Ok.
Qed.

(** X5. [reduce_log_sum] is [Log] after [reduce_sum].  Where [reduce_sum]
    fails, [reduce_log_sum] fails with the same exception, having built the
    same nodes.  Where [reduce_sum] succeeds, it returns one output, and
    [reduce_log_sum] builds the same nodes followed by one [Log] node over
    that very output, and returns the [Log] node. *)
Theorem X5_reduce_log_sum_is_log_after_reduce_sum infer_shape node :
  (∀ w e,
     set_1.reduce_sum infer_shape node = Built w (Throw e) →
     set_1.reduce_log_sum infer_shape node = Built w (Throw e))
  ∧ (∀ w outs,
       set_1.reduce_sum infer_shape node = Built w (Ok outs) →
       ∃ sum d,
         outs = [sum]
         ∧ has_descriptor sum d
         ∧ set_1.reduce_log_sum infer_shape node
           = Built (w ++ [log_node sum d])
                   (Ok [default_output (log_node sum d)])).
Proof.
  split.
  - intros w e. unfold set_1.reduce_sum, set_1.reduce_direct,
      set_1.reduce_log_sum.
    destruct (at_ (get_ov_inputs node) 0) as [w0 [input|e0]]; [|done].
    rewrite !bind_Built_Ok.
    destruct (make_ov_reduction_op _ _ _ _ _ _) as [w1 [n|e1]]; [|done].
    rewrite !bind_Built_Ok. cbn [trace outcome]. discriminate.
  - intros w outs H.
    destruct (early_reads _ ReduceSum _ _ _ H)
      as (input & d & keepdims & axes_trace & axes & Hreads).
    pose proof (early_run _ ReduceSum _ _ _ _ _ _ Hreads) as Hsum.
    pose proof (early_run _ ReduceLogSum _ _ _ _ _ _ Hreads) as Hlog.
    cbn [early] in Hsum, Hlog. rewrite Hsum in H. injection H as <- <-.
    eexists _, _. split_and!; [done| |].
    + apply has_type_default_reduce.
    + rewrite Hlog. cbn [built_first built_last app result_of reduced_of
                         data_of operator_of].
      by rewrite <- app_assoc.
Qed.

(** X6. The seven direct translators differ in the reduction operator
    only: a node on which one of them fails makes every other fail with the
    same exception, having built the same nodes, and so does
    [reduce_log_sum].  Validation does not depend on the kind of
    reduction. *)
Theorem X6_failure_does_not_depend_on_the_operator
    infer_shape op1 op2 node w e :
  set_1.reduce_direct infer_shape op1 node = Built w (Throw e) →
  set_1.reduce_direct infer_shape op2 node = Built w (Throw e)
  ∧ set_1.reduce_log_sum infer_shape node = Built w (Throw e).
Proof.
  unfold set_1.reduce_direct, set_1.reduce_log_sum.
  destruct (at_ (get_ov_inputs node) 0) as [w0 [input|e0]]; [|done].
  rewrite !bind_Built_Ok.
  destruct (make_ov_reduction_op infer_shape op1 _ _ _ _)
    as [w1 [n|e1]] eqn:H1; [discriminate|].
  rewrite (make_ov_reduction_op_throw_any_operator _ _ op2 _ _ _ _ _ _ H1).
  rewrite (make_ov_reduction_op_throw_any_operator _ _ v1_ReduceSum
             _ _ _ _ _ _ H1).
  done.
Qed.

(** ** What a failed translation leaves behind *)

Lemma get_attribute_value_int_cases node name default :
  (∃ v, int_attribute node name default v
        ∧ get_attribute_value_int node name default = mret v)
  ∨ (not_an_integer node name
     ∧ get_attribute_value_int node name default = throw TypeMismatch).
Proof.
  unfold get_attribute_value_int, int_attribute, not_an_integer.
  destruct (attributes node !! name) as [[]|]; eauto 6;
    right; (split; [eexists; split; [done|discriminate]|done]).
Qed.

Lemma at_cases {A} (v : list A) i :
  (∃ a, v !! i = Some a ∧ at_ v i = mret a)
  ∨ (v !! i = None ∧ at_ v i = throw OutOfRange).
Proof. unfold at_. destruct (v !! i); eauto. Qed.

Lemma get_descriptor_cases o :
  (∃ d, has_descriptor o d ∧ get_descriptor o = mret d)
  ∨ get_descriptor o = throw OutOfRange.
Proof.
  unfold get_descriptor, has_descriptor.
  destruct (node_outputs _ !! _); eauto.
Qed.

Lemma get_element_type_cases o :
  (∃ et, has_type o et ∧ get_element_type o = mret et)
  ∨ get_element_type o = throw OutOfRange.
Proof.
  unfold get_element_type.
  destruct (get_descriptor_cases o) as [([et ps] & Hd & ->) | ->].
  - left. exists et. split; [by exists ps|]. by rewrite bind_ret.
  - by right.
Qed.

Lemma get_partial_shape_cases o :
  (∃ ps, has_shape o ps ∧ get_partial_shape o = mret ps)
  ∨ get_partial_shape o = throw OutOfRange.
Proof.
  unfold get_partial_shape.
  destruct (get_descriptor_cases o) as [([et ps] & Hd & ->) | ->].
  - left. exists ps. split; [by exists et|]. by rewrite bind_ret.
  - by right.
Qed.

(** Every way the input path can end: an exception with nothing built, the
    null pointer with nothing built, the node of the second input with
    nothing built, or the run-time range over the first input. *)
Lemma get_reduction_axes_from_input_cases infer_shape node :
  (∃ e, get_reduction_axes_from_input infer_shape node = Built [] (Throw e))
  ∨ get_reduction_axes_from_input infer_shape node = Built [] (Ok None)
  ∨ (∃ axes,
       get_ov_inputs node !! 1%nat = Some axes
       ∧ get_reduction_axes_from_input infer_shape node
         = Built [] (Ok (Some (get_node_shared_ptr axes))))
  ∨ (∃ input,
       get_ov_inputs node !! 0%nat = Some input
       ∧ get_reduction_axes_from_input infer_shape node
         = Built (all_axes_range_trace infer_shape input)
                 (Ok (Some (all_axes_range_node infer_shape input)))).
Proof.
  unfold get_reduction_axes_from_input.
  destruct (get_attribute_value_int_cases node "noop_with_empty_axes" 0)
    as [(noop & _ & ->) | [_ ->]]; [|left; by eexists].
  rewrite bind_ret.
  destruct (at_cases (get_ov_inputs node) 0)
    as [(input & Hin & ->) | [_ ->]]; [|left; by eexists].
  rewrite bind_ret, (get_dynamic_all_axes_range_eq _ _ _ Hin).
  set (rest := λ supplied : option ov_node,
         match supplied with
         | Some axes => mret (Some axes)
         | None =>
             if bool_decide (noop ≠ 0) then mret None
             else Built (all_axes_range_trace infer_shape input)
                        (Ok (all_axes_range_node infer_shape input))
                  ≫= λ axes, mret (Some axes)
         end).
  assert (Hrest :
    (∃ e, rest None = Built [] (Throw e))
    ∨ rest None = Built [] (Ok None)
    ∨ (∃ axes,
         get_ov_inputs node !! 1%nat = Some axes
         ∧ rest None = Built [] (Ok (Some (get_node_shared_ptr axes))))
    ∨ (∃ input',
         get_ov_inputs node !! 0%nat = Some input'
         ∧ rest None
           = Built (all_axes_range_trace infer_shape input')
                   (Ok (Some (all_axes_range_node infer_shape input'))))).
  { unfold rest. destruct (bool_decide (noop ≠ 0)); [by right; left|].
    right. right. right. exists input. split; [done|]. by build_run. }
  destruct (bool_decide (1 < length (get_ov_inputs node))%nat);
    [|by rewrite bind_ret].
  destruct (at_cases (get_ov_inputs node) 1)
    as [(axes & Hax & ->) | [_ ->]]; [|left; by eexists].
  rewrite bind_ret.
  destruct (get_partial_shape_cases axes)
    as [(ps & _ & ->) | ->]; [|left; by eexists].
  rewrite bind_ret.
  destruct (ps_is_static ps); [|left; by eexists].
  cbn [check]. rewrite bind_ret.
  destruct (dim_get_length (rank ps)) as [rank_length|];
    [|left; by eexists].
  cbn [or_throw]. rewrite bind_ret.
  destruct (bool_decide (rank_length ≠ 0)); [|by rewrite bind_ret].
  destruct (ps_get_shape ps) as [shape|]; [|left; by eexists].
  cbn [or_throw]. rewrite bind_ret.
  match goal with
  | |- context [@bool_decide ?P ?dec] => destruct (@bool_decide P dec)
  end; rewrite bind_ret; [|done].
  right. right. left. by exists axes.
Qed.

(** The builder has built nothing when it throws. *)
Lemma make_ov_reduction_op_throw_trace
    infer_shape op node x supported axes_as_attr w e :
  make_ov_reduction_op infer_shape op node x supported axes_as_attr
  = Built w (Throw e) →
  w = [].
Proof.
  unfold make_ov_reduction_op.
  destruct (get_attribute_value_int_cases node "keepdims" 1)
    as [(keepdims & _ & ->) | [_ ->]]; [|by intros [= <- _]].
  rewrite bind_ret.
  destruct (get_element_type_cases x) as [(et & Ht & ->) | ->];
    [|by intros [= <- _]].
  rewrite bind_ret.
  destruct (bool_decide (et ∈ supported)); cbn [check];
    [|by intros [= <- _]].
  rewrite bind_ret.
  assert (Hresolver :
    ∀ r : Build (option ov_node),
      ((∃ e', r = Built [] (Throw e'))
       ∨ r = Built [] (Ok None)
       ∨ ∃ w' axes, r = Built w' (Ok (Some axes))) →
      r ≫= (λ reduction_axes,
              match reduction_axes with
              | Some axes =>
                  make_shared infer_shape
                    (Reduce op (bool_decide (keepdims ≠ 0)))
                    [x; default_output axes]
              | None =>
                  identity node ≫= λ outputs,
                  at_ outputs 0 ≫= λ first, mret (get_node_shared_ptr first)
              end)
      = Built w (Throw e) → w = []).
  { intros r [[e' ->] | [-> | (w' & axes & ->)]].
    - by intros [= <- _].
    - rewrite bind_Built_Ok. unfold identity. rewrite bind_ret.
      destruct (at_cases (get_ov_inputs node) 0) as [(first & _ & ->) | [_ ->]];
        [by rewrite bind_ret|by intros [= <- _]].
    - rewrite bind_Built_Ok, (make_shared_reduce _ _ _ _ _ _ Ht).
      discriminate. }
  apply Hresolver. destruct axes_as_attr.
  - destruct (get_reduction_axes_from_attr_cases infer_shape node)
      as [[e' ->] | [[values ->] | [input ->]]]; eauto 6.
  - destruct (get_reduction_axes_from_input_cases infer_shape node)
      as [[e' ->] | [-> | [(axes & _ & ->) | (input & _ & ->)]]]; eauto 6.
Qed.

Lemma make_shared_Exp_cases infer_shape x :
  (∃ d, has_descriptor x d ∧ d_element_type d ≠ boolean
        ∧ make_shared infer_shape v0_Exp [x] = emit (exp_node x d))
  ∨ (∃ e, make_shared infer_shape v0_Exp [x] = throw e).
Proof.
  destruct (get_descriptor_cases x) as [(d & Hd & Hget) | Hget].
  - destruct (decide (d_element_type d = boolean)) as [Hb|Hb].
    + right. exists NodeValidationFailure.
      unfold make_shared, validate_and_infer_types.
      rewrite Hget, bind_ret.
      by rewrite (bool_decide_eq_false_2 (d_element_type d ≠ boolean))
        by naive_solver.
    + left. exists d. split_and!; [done..|]. by apply make_shared_Exp.
  - right. exists OutOfRange. unfold make_shared, validate_and_infer_types.
    by rewrite Hget.
Qed.

Lemma make_shared_Multiply_cases infer_shape x :
  (∃ d, has_descriptor x d ∧ d_element_type d ≠ boolean
        ∧ make_shared infer_shape v1_Multiply [x; x] = emit (square_node x d))
  ∨ (∃ e, make_shared infer_shape v1_Multiply [x; x] = throw e).
Proof.
  destruct (get_descriptor_cases x) as [(d & Hd & Hget) | Hget].
  - destruct (decide (d_element_type d = boolean)) as [Hb|Hb].
    + right. exists NodeValidationFailure.
      unfold make_shared, validate_and_infer_types.
      rewrite Hget, !bind_ret.
      rewrite (bool_decide_eq_true_2 (d_element_type d = d_element_type d))
        by done.
      cbn [check]. rewrite bind_ret.
      by rewrite (bool_decide_eq_false_2 (d_element_type d ≠ boolean))
        by naive_solver.
    + left. exists d. split_and!; [done..|]. by apply make_shared_Multiply.
  - right. exists OutOfRange. unfold make_shared, validate_and_infer_types.
    by rewrite Hget.
Qed.

(** After the builder has succeeded on the attribute path, the [Log] node
    over its result is always built. *)
Lemma make_shared_Log_after_builder infer_shape op node x w n :
  make_ov_reduction_op infer_shape op node x supported_types_v1 true
  = Built w (Ok n) →
  ∃ d, make_shared infer_shape v0_Log [default_output n]
       = emit (log_node (default_output n) d).
Proof.
  intros H.
  apply make_ov_reduction_op_attr_Ok
    in H as (keepdims & et & wa & axes & _ & _ & Hsup & _ & -> & _).
  eexists. apply make_shared_Log; [apply has_type_default_reduce|].
  by apply supported_v1_not_boolean.
Qed.

(** X7. A translation that fails with one of the exceptions thrown in this
    unit (a type mismatch of an attribute, an unsupported element type, too
    many axes, an axes input of non-static shape, a missing input) has built
    nothing, for the direct translators, [reduce_log_sum] and the later-era
    [reduce_sum]: every check precedes the first construction.
    [reduce_log_sum_exp] and [reduce_sum_square] have built nothing or
    exactly their element-wise node over the first input.  The failures of
    the node constructors of the core library are left out of the statement,
    since they are not all modelled. *)
Theorem X7_failures_of_this_unit_leave_nothing_built infer_shape node w e :
  thrown_here e = true →
  (∀ op, set_1.reduce_direct infer_shape op node = Built w (Throw e) → w = [])
  ∧ (set_1.reduce_log_sum infer_shape node = Built w (Throw e) → w = [])
  ∧ (set_13.reduce_sum infer_shape node = Built w (Throw e) → w = [])
  ∧ (set_1.reduce_log_sum_exp infer_shape node = Built w (Throw e) →
     w = []
     ∨ ∃ input d,
         get_ov_inputs node !! 0%nat = Some input
         ∧ has_descriptor input d
         ∧ w = [exp_node input d])
  ∧ (set_1.reduce_sum_square infer_shape node = Built w (Throw e) →
     w = []
     ∨ ∃ input d,
         get_ov_inputs node !! 0%nat = Some input
         ∧ has_descriptor input d
         ∧ w = [square_node input d]).
Proof.
  intros _. split_and!.
  - intros op. unfold set_1.reduce_direct.
    destruct (at_cases (get_ov_inputs node) 0)
      as [(input & Hin & ->) | [_ ->]]; [|by intros [= <- _]].
    rewrite bind_ret.
    destruct (make_ov_reduction_op _ _ _ _ _ _) as [w1 [n|e1]] eqn:Hb;
      [discriminate|].
    apply make_ov_reduction_op_throw_trace in Hb as ->.
    by intros [= <- _].
  - unfold set_1.reduce_log_sum.
    destruct (at_cases (get_ov_inputs node) 0)
      as [(input & Hin & ->) | [_ ->]]; [|by intros [= <- _]].
    rewrite bind_ret.
    destruct (make_ov_reduction_op _ _ _ _ _ _) as [w1 [n|e1]] eqn:Hb.
    + destruct (make_shared_Log_after_builder _ _ _ _ _ _ Hb) as [d Hlog].
      rewrite bind_Built_Ok, Hlog. discriminate.
    + apply make_ov_reduction_op_throw_trace in Hb as ->.
      by intros [= <- _].
  - unfold set_13.reduce_sum.
    destruct (at_cases (get_ov_inputs node) 0)
      as [(input & Hin & ->) | [_ ->]]; [|by intros [= <- _]].
    rewrite bind_ret.
    destruct (make_ov_reduction_op _ _ _ _ _ _) as [w1 [n|e1]] eqn:Hb;
      [discriminate|].
    apply make_ov_reduction_op_throw_trace in Hb as ->.
    by intros [= <- _].
  - unfold set_1.reduce_log_sum_exp.
    destruct (at_cases (get_ov_inputs node) 0)
      as [(input & Hin & ->) | [_ ->]]; [|intros [= <- _]; by left].
    rewrite bind_ret.
    destruct (make_shared_Exp_cases infer_shape input)
      as [(d & Hd & _ & ->) | [e' ->]]; [|intros [= <- _]; by left].
    rewrite bind_emit.
    destruct (make_ov_reduction_op _ _ _ _ _ _) as [w1 [n|e1]] eqn:Hb.
    + destruct (make_shared_Log_after_builder _ _ _ _ _ _ Hb) as [d' Hlog].
      rewrite bind_Built_Ok, Hlog. discriminate.
    + apply make_ov_reduction_op_throw_trace in Hb as ->.
      intros [= <- _]. right. by exists input, d.
  - unfold set_1.reduce_sum_square.
    destruct (at_cases (get_ov_inputs node) 0)
      as [(input & Hin & ->) | [_ ->]]; [|intros [= <- _]; by left].
    rewrite bind_ret.
    destruct (make_shared_Multiply_cases infer_shape input)
      as [(d & Hd & _ & ->) | [e' ->]]; [|intros [= <- _]; by left].
    rewrite bind_emit.
    destruct (make_ov_reduction_op _ _ _ _ _ _) as [w1 [n|e1]] eqn:Hb;
      [discriminate|].
    apply make_ov_reduction_op_throw_trace in Hb as ->.
    intros [= <- _]. right. by exists input, d.
Qed.

(** ** One reduction per translation *)

Lemma get_reduction_axes_from_attr_trace infer_shape node w axes :
  get_reduction_axes_from_attr infer_shape node = Built w (Ok (Some axes)) →
  (∃ values, w = [constant i64 [length values] values])
  ∨ (∃ input, w = all_axes_range_trace infer_shape input).
Proof.
  destruct (get_reduction_axes_from_attr_cases infer_shape node)
    as [[e ->] | [[values ->] | [input ->]]]; [done|..];
    intros [= <- _]; eauto.
Qed.

(** X8. An early-era translation that succeeds has built exactly one
    reduction node, of the operator of its translator; its [keep_dims] flag
    is set exactly when the [keepdims] attribute is absent or not zero.  It
    has built at least two and at most ten nodes. *)
Theorem X8_one_reduction_per_translation infer_shape t node w outs :
  early infer_shape t node = Built w (Ok outs) →
  ∃ keepdims reduced,
    int_attribute node "keepdims" 1 keepdims
    ∧ List.filter (λ n, is_reduce (node_op n)) w = [reduced]
    ∧ node_op reduced = Reduce (operator_of t) (bool_decide (keepdims ≠ 0))
    ∧ (2 ≤ length w ≤ 10)%nat.
Proof.
  intros H.
  destruct (early_reads _ _ _ _ _ H)
    as (input & d & keepdims & axes_trace & axes & Hreads).
  rewrite (early_run _ _ _ _ _ _ _ _ Hreads) in H. injection H as <- _.
  destruct Hreads as (_ & _ & Hk & _ & Hax).
  exists keepdims, (reduced_of infer_shape t input d keepdims axes).
  split; [done|].
  destruct (get_reduction_axes_from_attr_trace _ _ _ _ Hax)
    as [[values ->] | [x ->]];
    destruct t; cbn; (split_and!; [done|done|lia|lia]).
Qed.

(** ** What a translator does not read *)

Lemma get_attribute_value_int_other name a node name' default :
  name ≠ name' →
  get_attribute_value_int (with_attribute name a node) name' default
  = get_attribute_value_int node name' default.
Proof.
  intros Hne. unfold get_attribute_value_int, with_attribute. cbn.
  by rewrite lookup_insert_ne.
Qed.

Lemma get_attribute_value_ints_other name a node name' default :
  name ≠ name' →
  get_attribute_value_ints (with_attribute name a node) name' default
  = get_attribute_value_ints node name' default.
Proof.
  intros Hne. unfold get_attribute_value_ints, with_attribute. cbn.
  by rewrite lookup_insert_ne.
Qed.

Lemma get_reduction_axes_from_attr_other infer_shape name a node :
  name ≠ "axes" →
  get_reduction_axes_from_attr infer_shape (with_attribute name a node)
  = get_reduction_axes_from_attr infer_shape node.
Proof.
  intros Hne. unfold get_reduction_axes_from_attr.
  by rewrite (get_attribute_value_ints_other _ _ _ _ _ Hne).
Qed.

Lemma get_reduction_axes_from_input_other infer_shape name a node :
  name ≠ "noop_with_empty_axes" →
  get_reduction_axes_from_input infer_shape (with_attribute name a node)
  = get_reduction_axes_from_input infer_shape node.
Proof.
  intros Hne. unfold get_reduction_axes_from_input.
  by rewrite (get_attribute_value_int_other _ _ _ _ _ Hne).
Qed.

Lemma make_ov_reduction_op_other
    infer_shape (name : string) a op node x supported (axes_as_attr : bool) :
  name ≠ "keepdims" →
  name ≠ (if axes_as_attr then "axes" else "noop_with_empty_axes") →
  make_ov_reduction_op infer_shape op (with_attribute name a node) x
    supported axes_as_attr
  = make_ov_reduction_op infer_shape op node x supported axes_as_attr.
Proof.
  intros Hk Hax. unfold make_ov_reduction_op.
  rewrite (get_attribute_value_int_other _ _ _ _ _ Hk).
  destruct axes_as_attr.
  - by rewrite (get_reduction_axes_from_attr_other _ _ _ _ Hax).
  - by rewrite (get_reduction_axes_from_input_other _ _ _ _ Hax).
Qed.

(** X9. The early-era translators do not read the
    [noop_with_empty_axes] attribute nor any input after the first: storing
    that attribute, with any value of any type, or appending inputs, changes
    nothing of what they build and return.  The later-era [reduce_sum] does
    not read the [axes] attribute nor any input after the second. *)
Theorem X9_what_the_translators_do_not_read
    (infer_shape : op_kind → list Output → PartialShape) (node : Node) :
  (∀ t a,
     early infer_shape t (with_attribute "noop_with_empty_axes" a node)
     = early infer_shape t node)
  ∧ (∀ a,
       set_13.reduce_sum infer_shape (with_attribute "axes" a node)
       = set_13.reduce_sum infer_shape node)
  ∧ (∀ t x rest,
       early infer_shape t (with_inputs (x :: rest) node)
       = early infer_shape t (with_inputs [x] node))
  ∧ (∀ x y rest,
       set_13.reduce_sum infer_shape (with_inputs (x :: y :: rest) node)
       = set_13.reduce_sum infer_shape (with_inputs [x; y] node)).
Proof.
  split_and!.
  - intros t a.
    assert (Hb : ∀ op x,
      make_ov_reduction_op infer_shape op
        (with_attribute "noop_with_empty_axes" a node) x supported_types_v1 true
      = make_ov_reduction_op infer_shape op node x supported_types_v1 true)
      by (intros; by apply make_ov_reduction_op_other).
    destruct t; cbn [early];
      unfold set_1.reduce_log_sum, set_1.reduce_log_sum_exp,
        set_1.reduce_l1, set_1.reduce_l2, set_1.reduce_max,
        set_1.reduce_mean, set_1.reduce_min, set_1.reduce_prod,
        set_1.reduce_sum, set_1.reduce_direct, set_1.reduce_sum_square;
      cbn [get_ov_inputs with_attribute];
      (destruct (at_ (get_ov_inputs node) 0) as [w0 [x|e0]]; [|done]);
      rewrite !bind_Built_Ok; rewrite ?Hb; try done;
      (destruct (make_shared _ _ _) as [w1 [n|e1]]; [|done]);
      by rewrite !bind_Built_Ok, Hb.
  - intros a. unfold set_13.reduce_sum. cbn [get_ov_inputs with_attribute].
    destruct (at_ (get_ov_inputs node) 0) as [w0 [x|e0]]; [|done].
    rewrite !bind_Built_Ok.
    by rewrite (make_ov_reduction_op_other _ "axes" a).
  - intros t x rest. by destruct t.
  - intros x y rest. unfold set_13.reduce_sum, make_ov_reduction_op,
      get_reduction_axes_from_input.
    cbn [get_ov_inputs with_inputs length].
    rewrite (bool_decide_eq_true_2 (1 < S (S (length rest)))%nat) by lia.
    rewrite (bool_decide_eq_true_2 (1 < 2)%nat) by lia.
    reflexivity.
Qed.

(** ** The order of the checks *)

Lemma get_attribute_value_int_mismatch node name default :
  not_an_integer node name →
  get_attribute_value_int node name default = throw TypeMismatch.
Proof.
  intros (a & Ha & Hne). unfold get_attribute_value_int. rewrite Ha.
  destruct a; try done. by destruct (Hne v).
Qed.

Lemma get_attribute_value_ints_mismatch node name default :
  not_an_integer_list node name →
  get_attribute_value_ints node name default = throw TypeMismatch.
Proof.
  intros (a & Ha & Hne). unfold get_attribute_value_ints. rewrite Ha.
  destruct a; try done. by destruct (Hne vs).
Qed.

(** X10. The first input is fetched before anything else is looked at: on
    a node without inputs every translator fails with the exception of
    [vector::at], whatever its attributes, having built nothing. *)
Theorem X10_no_input_is_out_of_range infer_shape node :
  get_ov_inputs node = [] →
  (∀ t, early infer_shape t node = Built [] (Throw OutOfRange))
  ∧ set_13.reduce_sum infer_shape node = Built [] (Throw OutOfRange).
Proof.
  intros Hnone.
  assert (Hat : at_ (get_ov_inputs node) 0 = throw (A:=Output) OutOfRange)
    by by rewrite Hnone.
  split.
  - intros t. destruct t; cbn [early];
      unfold set_1.reduce_log_sum, set_1.reduce_log_sum_exp,
        set_1.reduce_l1, set_1.reduce_l2, set_1.reduce_max,
        set_1.reduce_mean, set_1.reduce_min, set_1.reduce_prod,
        set_1.reduce_sum, set_1.reduce_direct, set_1.reduce_sum_square;
      by rewrite Hat.
  - unfold set_13.reduce_sum. by rewrite Hat.
Qed.

(** X11. Where the attributes are read.  [keepdims] is read before the
    element type is checked: stored with another type than integer, it makes
    the direct translators, [reduce_log_sum] and the later-era [reduce_sum]
    fail with [TypeMismatch] before anything is built, whatever the element
    type of the input.  [axes] (early era) and [noop_with_empty_axes] (later
    era) are read after the element type has been accepted; the latter is
    read, and must be an integer, even when a second input supplies the
    axes. *)
Theorem X11_attributes_of_the_wrong_type infer_shape node input :
  get_ov_inputs node !! 0%nat = Some input →
  (not_an_integer node "keepdims" →
   (∀ op, set_1.reduce_direct infer_shape op node
          = Built [] (Throw TypeMismatch))
   ∧ set_1.reduce_log_sum infer_shape node = Built [] (Throw TypeMismatch)
   ∧ set_13.reduce_sum infer_shape node = Built [] (Throw TypeMismatch))
  ∧ (∀ keepdims et,
       int_attribute node "keepdims" 1 keepdims →
       has_type input et →
       (not_an_integer_list node "axes" →
        ∀ op,
          set_1.reduce_direct infer_shape op node
          = if bool_decide (et ∈ supported_types_v1)
            then Built [] (Throw TypeMismatch)
            else Built [] (Throw UnsupportedType))
       ∧ (not_an_integer node "noop_with_empty_axes" →
          set_13.reduce_sum infer_shape node
          = if bool_decide (et ∈ supported_types_v2)
            then Built [] (Throw TypeMismatch)
            else Built [] (Throw UnsupportedType))).
Proof.
  intros Hin. split.
  - intros Hk.
    assert (Hb : ∀ op x supported axes_as_attr,
      make_ov_reduction_op infer_shape op node x supported axes_as_attr
      = throw TypeMismatch).
    { intros. unfold make_ov_reduction_op.
      by rewrite (get_attribute_value_int_mismatch _ _ _ Hk). }
    split_and!; [intros op|..];
      unfold set_1.reduce_direct, set_1.reduce_log_sum, set_13.reduce_sum;
      by rewrite (at_read _ _ _ Hin), bind_ret, Hb.
  - intros keepdims et Hk Ht. split.
    + intros Hax op. unfold set_1.reduce_direct.
      rewrite (at_read _ _ _ Hin), bind_ret.
      rewrite (make_ov_reduction_op_eq _ _ _ _ _ _ _ _ Hk Ht).
      destruct (bool_decide (et ∈ supported_types_v1)); [|done].
      unfold get_reduction_axes_from_attr.
      by rewrite (get_attribute_value_ints_mismatch _ _ _ Hax).
    + intros Hnoop. unfold set_13.reduce_sum.
      rewrite (at_read _ _ _ Hin), bind_ret.
      rewrite (make_ov_reduction_op_eq _ _ _ _ _ _ _ _ Hk Ht).
      destruct (bool_decide (et ∈ supported_types_v2)); [|done].
      unfold get_reduction_axes_from_input.
      by rewrite (get_attribute_value_int_mismatch _ _ _ Hnoop).
Qed.

(** ** The compiled-model wrapper: its accessors and methods *)

Section CompiledModelWrapFacts.
Import CompiledModelWrap.
Context {number object : Type}.
Variable Int32Value : number → Z.
Variable wrap : Output → returned object.

Lemma array_set_next (done : list object) (o : object) (n : nat) :
  array_set object ((Some <$> done) ++ new_array object (S n))
    (length done) o
  = (Some <$> (done ++ [o])) ++ new_array object n.
Proof.
  unfold array_set, new_array. cbn [replicate].
  rewrite length_app, length_fmap.
  destruct (bool_decide_reflect
              (length done < length done + length (None :: replicate n (@None object)))%nat)
    as [_|Hge]; [|cbn [length] in Hge; lia].
  rewrite <- (length_fmap Some done) at 1.
  rewrite (insert_app_r_alt _ _ (length (Some <$> done))) by lia.
  rewrite Nat.sub_diag. cbn [list_insert].
  by rewrite fmap_app, <- app_assoc.
Qed.

(** The invariant of the loop: the first [length done] elements are the
    objects of the ports seen so far, the rest are holes, and [i] is the
    number of ports seen. *)
Lemma wrap_into_invariant (ports : list Output) (done : list object) :
  Z.of_nat (length done + length ports) < 2 ^ 32 →
  wrap_into object wrap ports (Z.of_nat (length done))
    ((Some <$> done) ++ new_array object (length ports))
  = and_then (wrap_all object wrap ports)
      (λ os, Returns (Some <$> (done ++ os))).
Proof.
  revert done. induction ports as [|port rest IH]; intros done Hlt.
  - cbn. unfold new_array. cbn. by rewrite !app_nil_r.
  - cbn [wrap_into wrap_all length].
    destruct (wrap port) as [o|e]; [|done]. cbn [and_then].
    rewrite Nat2Z.id, array_set_next.
    replace ((Z.of_nat (length done) + 1) mod 2 ^ 32)
      with (Z.of_nat (length (done ++ [o]))).
    2:{ rewrite length_app. cbn [length].
        rewrite Z.mod_small; cbn [length] in Hlt; lia. }
    rewrite IH.
    2:{ rewrite length_app. cbn [length] in *. lia. }
    destruct (wrap_all object wrap rest) as [os|e]; [|done].
    cbn [and_then]. by rewrite <- app_assoc.
Qed.

Lemma wrap_all_Forall2 (ports : list Output) (os : list object) :
  Forall2 (λ port o, wrap port = Returns o) ports os →
  wrap_all object wrap ports = Returns os.
Proof.
  induction 1 as [|port o ports os Hw _ IH]; [done|].
  cbn. by rewrite Hw, IH.
Qed.

Lemma wrap_all_first_failure (good rest : list Output) port e :
  Forall (λ port, ∃ o, wrap port = Returns o) good →
  wrap port = Escapes e →
  wrap_all object wrap (good ++ port :: rest) = Escapes e.
Proof.
  intros Hgood He. induction Hgood as [|p good [o Hp] _ IH]; cbn.
  - by rewrite He.
  - by rewrite Hp, IH.
Qed.

Lemma get_ports_spec (ports : list Output) :
  Z.of_nat (length ports) < 2 ^ 32 →
  get_ports object wrap ports
  = Called [] (and_then (wrap_all object wrap ports)
                 (λ os, Returns (Array (Some <$> os)))).
Proof.
  intros Hlt. unfold get_ports.
  pose proof (wrap_into_invariant ports [] Hlt) as H.
  change (wrap_into object wrap ports 0 (new_array object (length ports))
          = and_then (wrap_all object wrap ports)
              (λ os, Returns (Some <$> os))) in H.
  rewrite H. by destruct (wrap_all object wrap ports).
Qed.

Lemma get_port_cases only by_name by_index last_message info :
  let c := get_port number object Int32Value wrap only by_name by_index
             last_message info in
  (length (reported c) ≤ 1)%nat
  ∧ (reported c ≠ [] → result c = Returns Empty)
  ∧ (∀ e, result c = Escapes e →
          reported c = [] ∧ ∃ a, info = [a] ∧ a ≠ Neither)
  ∧ (info = [] → ∀ e, and_then only wrap = Escapes e →
                      c = Called [e] (Returns Empty))
  ∧ ((2 ≤ length info)%nat →
     c = Called ["Invalid number of arguments -> " +:+ pretty (length info)]
                (Returns Empty))
  ∧ (info = [Neither] → c = Called [last_message] (Returns Empty)).
Proof.
  cbn zeta. unfold get_port.
  destruct (bool_decide_reflect (length info = 0%nat)) as [H0|H0].
  - apply nil_length_inv in H0 as ->.
    destruct (and_then only wrap) as [o|e]; cbn [reported result length];
      split_and!; try done; try lia.
    by intros _ e' [= ->].
  - destruct (bool_decide_reflect (length info ≠ 1%nat)) as [H1|H1].
    + cbn [reported result length]. split_and!; try done; try lia.
      * by intros ->.
      * by intros ->.
    + destruct info as [|a [|b info]]; [done| |cbn [length] in H1; lia].
      destruct a as [s|n|]; cbn;
        split_and!; try done; try lia;
        intros e He; (split; [done|]); eexists; (split; [done|discriminate]).
Qed.

End CompiledModelWrapFacts.

(** X12. The accessors [outputs] and [inputs] of the wrapper, for a model
    with fewer than [2^32] ports: when every port can be wrapped, they
    return an array with exactly one element per port, the object of the
    i-th port at index i, and no hole; when some port cannot be wrapped, the
    exception of the first such port escapes.  Nothing is ever reported. *)
Theorem X12_ports_are_wrapped_in_order
    {object : Type} (wrap : Output → CompiledModelWrap.returned object)
    (outputs_wanted : bool) (cm : CompiledModelWrap.CompiledModel) :
  let ports :=
    if outputs_wanted then CompiledModelWrap.outputs cm
    else CompiledModelWrap.inputs cm in
  let c :=
    if outputs_wanted then CompiledModelWrap.get_outputs object wrap cm
    else CompiledModelWrap.get_inputs object wrap cm in
  Z.of_nat (length ports) < 2 ^ 32 →
  (∀ os,
     Forall2 (λ port o, wrap port = CompiledModelWrap.Returns o) ports os →
     c = CompiledModelWrap.Called []
           (CompiledModelWrap.Returns
              (CompiledModelWrap.Array (Some <$> os))))
  ∧ (∀ good port rest e,
       ports = good ++ port :: rest →
       Forall (λ p, ∃ o, wrap p = CompiledModelWrap.Returns o) good →
       wrap port = CompiledModelWrap.Escapes e →
       c = CompiledModelWrap.Called [] (CompiledModelWrap.Escapes e)).
Proof.
  intros ports c Hlt.
  assert (Hc : c = CompiledModelWrap.get_ports object wrap ports)
    by (unfold c, ports; by destruct outputs_wanted).
  rewrite Hc, (get_ports_spec wrap ports Hlt). split.
  - intros os Hall. by rewrite (wrap_all_Forall2 wrap _ _ Hall).
  - intros good port rest e -> Hgood He.
    by rewrite (wrap_all_first_failure wrap _ _ _ _ Hgood He).
Qed.

(** X13. The methods [output] and [input] of the wrapper report at most one
    error, and return the empty value whenever they report one.  Called
    without argument they never let an exception escape: what the model or
    the wrapping throws is caught and its message reported.  Called with two
    or more arguments, or with one argument that is neither a string nor a
    number, they report a fixed message.  Only a call with one string or one
    number can let an exception escape, and then nothing is reported. *)
Theorem X13_methods_report_or_let_escape
    {number object : Type} (Int32Value : number → Z)
    (wrap : Output → CompiledModelWrap.returned object)
    (outputs_wanted : bool) (cm : CompiledModelWrap.CompiledModel)
    (info : list (CompiledModelWrap.Argument number)) :
  let c :=
    if outputs_wanted
    then CompiledModelWrap.get_output number object Int32Value wrap cm info
    else CompiledModelWrap.get_input number object Int32Value wrap cm info in
  let only :=
    if outputs_wanted then CompiledModelWrap.output cm
    else CompiledModelWrap.input cm in
  (length (CompiledModelWrap.reported c) ≤ 1)%nat
  ∧ (CompiledModelWrap.reported c ≠ [] →
     CompiledModelWrap.result c
     = CompiledModelWrap.Returns CompiledModelWrap.Empty)
  ∧ (∀ e, CompiledModelWrap.result c = CompiledModelWrap.Escapes e →
          CompiledModelWrap.reported c = []
          ∧ ∃ a, info = [a] ∧ a ≠ CompiledModelWrap.Neither)
  ∧ (info = [] →
     ∀ e, CompiledModelWrap.and_then only wrap = CompiledModelWrap.Escapes e →
          c = CompiledModelWrap.Called [e]
                (CompiledModelWrap.Returns CompiledModelWrap.Empty))
  ∧ ((2 ≤ length info)%nat →
     c = CompiledModelWrap.Called
           ["Invalid number of arguments -> " +:+ pretty (length info)]
           (CompiledModelWrap.Returns CompiledModelWrap.Empty))
  ∧ (info = [CompiledModelWrap.Neither] →
     c = CompiledModelWrap.Called
           [if outputs_wanted
            then "Error while getting compiled model outputs."
            else "Error while getting compiled model inputs."]
           (CompiledModelWrap.Returns CompiledModelWrap.Empty)).
Proof.
  destruct outputs_wanted; apply get_port_cases.
Qed.

(** X14. A number argument is converted to a 32-bit integer and passed
    where the model expects an unsigned 64-bit index.  A number that
    converts to a non-negative integer reaches the model unchanged; one that
    converts to a negative integer [idx] reaches it as [2^64 + idx], an
    index of at least [2^64 - 2^31]. *)
Theorem X14_a_negative_index_wraps_around
    {number object : Type} (Int32Value : number → Z)
    (wrap : Output → CompiledModelWrap.returned object)
    (cm : CompiledModelWrap.CompiledModel) (n : number) :
  - 2 ^ 31 ≤ Int32Value n < 2 ^ 31 →
  let index :=
    if bool_decide (0 ≤ Int32Value n) then Int32Value n
    else 2 ^ 64 + Int32Value n in
  CompiledModelWrap.get_output number object Int32Value wrap cm
    [CompiledModelWrap.Number n]
  = CompiledModelWrap.Called []
      (CompiledModelWrap.and_then
         (CompiledModelWrap.and_then
            (CompiledModelWrap.output_by_index cm index) wrap)
         (λ o, CompiledModelWrap.Returns (CompiledModelWrap.Object o)))
  ∧ (Int32Value n < 0 → 2 ^ 64 - 2 ^ 31 ≤ index < 2 ^ 64).
Proof.
  intros Hrange index.
  assert (Hidx : CompiledModelWrap.to_size_t (Int32Value n) = index).
  { unfold CompiledModelWrap.to_size_t, index. case_bool_decide.
    - apply Z.mod_small. lia.
    - rewrite <- (Z.mod_add _ 1) by lia.
      rewrite Z.mod_small; lia. }
  split.
  - unfold CompiledModelWrap.get_output, CompiledModelWrap.get_port.
    cbn. by rewrite Hidx.
  - intros Hneg. unfold index. case_bool_decide; lia.
Qed.

(** ** The further properties at sample values *)

Lemma X1_on_an_axes_input :
  get_reduction_axes_from_input no_inference axes_input_node
  = Built [] (Ok (Some one_axis)).
Proof.
  refine (eq_trans
            (X1_supplied_axes_are_returned_as_they_are no_inference
               axes_input_node 0 (matrix f32) (default_output one_axis)
               [1%nat] _ _ _ _) _).
  - right. split; reflexivity.
  - reflexivity.
  - reflexivity.
  - exists i64. reflexivity.
  - reflexivity.
Defined.

Lemma X2_on_an_axes_input :
  set_13.reduce_sum no_inference axes_input_node
  = (reduced ←
       make_shared no_inference (Reduce v1_ReduceSum true)
         [matrix f32; default_output one_axis];
     mret [default_output reduced]).
Proof.
  refine (proj1 (proj2
            (X2_later_reduce_sum_with_a_second_input no_inference
               axes_input_node 0 1 (matrix f32) f32 (default_output one_axis)
               [1%nat] _ _ _ _ _ _ _) _ _)).
  - right. split; reflexivity.
  - right. split; reflexivity.
  - reflexivity.
  - exists (PartialShapeRanked [Dim 2; Dim 3]). reflexivity.
  - apply (bool_decide_eq_true_1 (f32 ∈ supported_types_v2)). reflexivity.
  - reflexivity.
  - exists i64. reflexivity.
  - discriminate.
  - discriminate.
Defined.

Lemma X3_on_a_matrix :
  set_13.reduce_sum no_inference (plain_node f32)
  = Built (all_axes_range_trace no_inference (matrix f32)
           ++ [reduce_node no_inference v1_ReduceSum true (matrix f32)
                 (all_axes_range_node no_inference (matrix f32)) f32])
          (Ok [default_output
                 (reduce_node no_inference v1_ReduceSum true (matrix f32)
                    (all_axes_range_node no_inference (matrix f32)) f32)]).
Proof.
  refine (proj1 (X3_later_reduce_sum_over_all_axes no_inference
                   (plain_node f32) 1 (matrix f32) f32 _ _ _ _ _)).
  - right. split; reflexivity.
  - right. split; reflexivity.
  - reflexivity.
  - exists (PartialShapeRanked [Dim 2; Dim 3]). reflexivity.
  - apply (bool_decide_eq_true_1 (f32 ∈ supported_types_v2)). reflexivity.
Defined.

Lemma X4_on_odd_axes :
  get_reduction_axes_from_attr no_inference odd_axes_node
  = Built [constant i64 [2%nat] [-1; 7]]
          (Ok (Some (constant i64 [2%nat] [-1; 7]))).
Proof.
  refine (X4_given_axes_are_emitted_verbatim no_inference odd_axes_node
            [-1; 7] (matrix f32) [Dim 2; Dim 3] _ _ _ _ _).
  - left. reflexivity.
  - discriminate.
  - reflexivity.
  - exists f32. reflexivity.
  - cbn. lia.
Defined.

Lemma X6_on_three_axes :
  set_1.reduce_direct no_inference v1_ReduceMax three_axes_node
  = Built [] (Throw AxesRankTooLarge)
  ∧ set_1.reduce_log_sum no_inference three_axes_node
    = Built [] (Throw AxesRankTooLarge).
Proof.
  refine (X6_failure_does_not_depend_on_the_operator no_inference
            v1_ReduceSum v1_ReduceMax three_axes_node [] AxesRankTooLarge _).
  by vm_compute.
Defined.

Lemma X7_on_three_axes :
  trace (set_1.reduce_direct no_inference v1_ReduceSum three_axes_node) = [].
Proof.
  refine (proj1 (X7_failures_of_this_unit_leave_nothing_built no_inference
                   three_axes_node
                   (trace (set_1.reduce_direct no_inference v1_ReduceSum
                             three_axes_node))
                   AxesRankTooLarge _) v1_ReduceSum _).
  - reflexivity.
  - by vm_compute.
Defined.

Lemma X8_on_a_matrix :
  ∃ keepdims reduced,
    int_attribute (plain_node f32) "keepdims" 1 keepdims
    ∧ List.filter (λ n, is_reduce (node_op n))
        [constant i64 [2%nat] [0; 1];
         reduce_node no_inference v1_ReduceSum true (matrix f32)
           (constant i64 [2%nat] [0; 1]) f32]
      = [reduced]
    ∧ node_op reduced = Reduce v1_ReduceSum (bool_decide (keepdims ≠ 0))
    ∧ (2 ≤ 2 ≤ 10)%nat.
Proof.
  refine (X8_one_reduction_per_translation no_inference ReduceSum
            (plain_node f32)
            [constant i64 [2%nat] [0; 1];
             reduce_node no_inference v1_ReduceSum true (matrix f32)
               (constant i64 [2%nat] [0; 1]) f32]
            [default_output
               (reduce_node no_inference v1_ReduceSum true (matrix f32)
                  (constant i64 [2%nat] [0; 1]) f32)] _).
  by vm_compute.
Defined.

Lemma X10_on_no_input :
  set_13.reduce_sum no_inference no_input_node
  = Built [] (Throw OutOfRange).
Proof.
  refine (proj2 (X10_no_input_is_out_of_range no_inference no_input_node _)).
  reflexivity.
Defined.

Lemma X11_on_float_keepdims :
  set_13.reduce_sum no_inference float_keepdims_node
  = Built [] (Throw TypeMismatch).
Proof.
  refine (proj2 (proj2 (proj1 (X11_attributes_of_the_wrong_type no_inference
                                 float_keepdims_node (matrix f32) _) _))).
  - reflexivity.
  - exists (AttrFloat 0). split; [reflexivity|discriminate].
Defined.

Lemma X12_on_the_sample_model :
  CompiledModelWrap.get_outputs Output wrap_port sample_model
  = CompiledModelWrap.Called []
      (CompiledModelWrap.Returns
         (CompiledModelWrap.Array
            [Some (OutputOf variadic_split 0);
             Some (OutputOf variadic_split 1)])).
Proof.
  refine (proj1 (X12_ports_are_wrapped_in_order wrap_port true sample_model _)
            [OutputOf variadic_split 0; OutputOf variadic_split 1] _).
  - cbn. lia.
  - repeat constructor.
Defined.

Lemma X14_on_minus_one :
  CompiledModelWrap.get_output Z Output id wrap_port sample_model
    [CompiledModelWrap.Number (-1)]
  = CompiledModelWrap.Called []
      (CompiledModelWrap.and_then
         (CompiledModelWrap.and_then
            (CompiledModelWrap.output_by_index sample_model (2 ^ 64 + -1))
            wrap_port)
         (λ o, CompiledModelWrap.Returns (CompiledModelWrap.Object o))).
Proof.
  refine (proj1 (X14_a_negative_index_wraps_around id wrap_port sample_model
                   (-1) _)).
  cbn. lia.
Defined.

(** The methods on the sample model. *)

Example output_without_argument_reports :
  CompiledModelWrap.get_output Z Output id wrap_port sample_model []
  = CompiledModelWrap.Called ["more than one output"]
      (CompiledModelWrap.Returns CompiledModelWrap.Empty).
Proof. reflexivity. Qed.

Example output_with_three_arguments_reports :
  CompiledModelWrap.get_output Z Output id wrap_port sample_model
    [CompiledModelWrap.Number 0; CompiledModelWrap.Number 1;
     CompiledModelWrap.Neither]
  = CompiledModelWrap.Called ["Invalid number of arguments -> 3"]
      (CompiledModelWrap.Returns CompiledModelWrap.Empty).
Proof. by vm_compute. Qed.

Example output_by_name_lets_escape :
  CompiledModelWrap.get_output Z Output id wrap_port sample_model
    [CompiledModelWrap.String "logits"]
  = CompiledModelWrap.Called [] (CompiledModelWrap.Escapes "no such output").
Proof. by vm_compute. Qed.

Example output_minus_one_lets_escape :
  CompiledModelWrap.get_output Z Output id wrap_port sample_model
    [CompiledModelWrap.Number (-1)]
  = CompiledModelWrap.Called [] (CompiledModelWrap.Escapes "no such output").
Proof. by vm_compute. Qed.
